(** * Smooth-Scroll: the scroll animator and the frame-rate estimator

    A shallow embedding of the [SmoothScroll] class (smooth-scroll.js) and of
    the part of the browser it talks to: the animation-frame queue, the timer
    queue, the page-visibility signal and [window.scrollBy].

    Layout: JavaScript numbers and values, the object and its constructor,
    the Bezier functions, the methods as functions on a [World] (the object
    plus the host's queues), the host's events, and then the properties. *)

From Stdlib Require Import ZArith QArith Qround Qabs List Bool Lia Lqa String.
Import ListNotations.


(* ================================================================= *)
(** ** JavaScript numbers *)

(** A JavaScript number is an IEEE double.  The finite ones are modelled by
    exact rationals, next to the two infinities and NaN.  Two things are
    therefore not represented: the rounding of each arithmetic result to the
    nearest double, and the sign of zero (a division of a nonzero number by
    zero gives the infinity of the dividend's sign, as it does for [+0]). *)
Module JS.

Inductive num : Type :=
| Fin (q : Q)
| PInf
| NInf
| NaN.

Definition of_Z (z : Z) : num := Fin (inject_Z z).

Definition inf_of_sign (c : comparison) : num :=
  match c with Gt => PInf | Lt => NInf | Eq => NaN end.

Definition neg (a : num) : num :=
  match a with
  | Fin q => Fin (- q)
  | PInf => NInf
  | NInf => PInf
  | NaN => NaN
  end.

Definition add (a b : num) : num :=
  match a, b with
  | NaN, _ | _, NaN => NaN
  | Fin x, Fin y => Fin (x + y)
  | PInf, NInf | NInf, PInf => NaN
  | PInf, _ | _, PInf => PInf
  | NInf, _ | _, NInf => NInf
  end.

Definition sub (a b : num) : num := add a (neg b).

Definition mul (a b : num) : num :=
  match a, b with
  | NaN, _ | _, NaN => NaN
  | Fin x, Fin y => Fin (x * y)
  | Fin x, PInf | PInf, Fin x => inf_of_sign (x ?= 0)
  | Fin x, NInf | NInf, Fin x => inf_of_sign (0 ?= x)
  | PInf, PInf | NInf, NInf => PInf
  | PInf, NInf | NInf, PInf => NInf
  end.

Definition div (a b : num) : num :=
  match a, b with
  | NaN, _ | _, NaN => NaN
  | Fin x, Fin y => if Qeq_bool y 0 then inf_of_sign (x ?= 0) else Fin (x / y)
  | Fin _, PInf | Fin _, NInf => Fin 0
  | PInf, Fin y => if Qle_bool 0 y then PInf else NInf
  | NInf, Fin y => if Qle_bool 0 y then NInf else PInf
  | _, _ => NaN
  end.

(** [Math.pow(x, 2)] *)
Definition pow2 (a : num) : num := mul a a.

(** [Math.round]: the nearest integer, a tie going up. *)
Definition round (a : num) : num :=
  match a with
  | Fin q => of_Z (Qfloor (q + (1 # 2)))
  | _ => a
  end.

(** [a > b]; false as soon as one side is NaN. *)
Definition gt (a b : num) : bool :=
  match a, b with
  | NaN, _ | _, NaN => false
  | Fin x, Fin y => match x ?= y with Gt => true | _ => false end
  | PInf, PInf | NInf, _ | Fin _, PInf => false
  | PInf, _ | Fin _, NInf => true
  end.

(** [a < b] *)
Definition lt (a b : num) : bool := gt b a.

(** [a === b] on numbers: NaN is equal to nothing. *)
Definition eqb (a b : num) : bool :=
  match a, b with
  | Fin x, Fin y => Qeq_bool x y
  | PInf, PInf | NInf, NInf => true
  | _, _ => false
  end.

Definition is_finite (a : num) : bool :=
  match a with Fin _ => true | _ => false end.

(** The values the fields of the object take.  Strings and objects do not
    reach the arithmetic of this program. *)
Inductive value : Type :=
| VUndefined
| VNull
| VBool (b : bool)
| VNum (n : num).

(** ToNumber *)
Definition to_number (v : value) : num :=
  match v with
  | VUndefined => NaN
  | VNull => Fin 0
  | VBool true => Fin 1
  | VBool false => Fin 0
  | VNum n => n
  end.

(** ToBoolean *)
Definition truthy (v : value) : bool :=
  match v with
  | VUndefined | VNull => false
  | VBool b => b
  | VNum (Fin q) => negb (Qeq_bool q 0)
  | VNum NaN => false
  | VNum _ => true
  end.

(** [v === w] *)
Definition strict_eq (v w : value) : bool :=
  match v, w with
  | VUndefined, VUndefined | VNull, VNull => true
  | VBool a, VBool b => Bool.eqb a b
  | VNum a, VNum b => eqb a b
  | _, _ => false
  end.

End JS.

Import JS.

Declare Scope js_scope.
Delimit Scope js_scope with js.
Bind Scope js_scope with num.
Notation "a + b" := (add a b) : js_scope.
Notation "a - b" := (sub a b) : js_scope.
Notation "a * b" := (mul a b) : js_scope.
Notation "a / b" := (div a b) : js_scope.
Notation "- a" := (neg a) : js_scope.
Notation "a >? b" := (gt a b) (at level 70, no associativity) : js_scope.
Notation "a <? b" := (lt a b) (at level 70, no associativity) : js_scope.

(** Number literals of the source. *)
Definition n_ (z : Z) : num := of_Z z.

(* ================================================================= *)
(** ** The object *)

(** [this.settings] *)
Record Settings : Type := mkSettings {
  durationIncreaseFactor : value;
  scrollSpeedMultiplier : value;
  scrollDuration : value;
  limitDuration : value;
  enableLimitDuration : value;
  toggleButtonSelector : string;
  activeStateClassName : string
}.

(** The [options] argument of the constructor: each key present or not. *)
Record Options : Type := mkOptions {
  opt_durationIncreaseFactor : option value;
  opt_scrollSpeedMultiplier : option value;
  opt_scrollDuration : option value;
  opt_limitDuration : option value;
  opt_enableLimitDuration : option value;
  opt_toggleButtonSelector : option string;
  opt_activeStateClassName : option string
}.

(** [{}] *)
Definition no_options : Options :=
  mkOptions None None None None None None None.

Definition or_default {A : Type} (o : option A) (d : A) : A :=
  match o with Some a => a | None => d end.

(** [{ ...defaults, ...options }] *)
Definition merge_settings (options : Options) : Settings :=
  {| durationIncreaseFactor :=
       or_default (opt_durationIncreaseFactor options) (VNum (Fin (11 # 10)));
     scrollSpeedMultiplier :=
       or_default (opt_scrollSpeedMultiplier options) (VNum (n_ 12));
     scrollDuration := or_default (opt_scrollDuration options) (VNum (n_ 700));
     limitDuration := or_default (opt_limitDuration options) (VNum (n_ 2500));
     enableLimitDuration :=
       or_default (opt_enableLimitDuration options) (VBool true);
     toggleButtonSelector :=
       or_default (opt_toggleButtonSelector options) ".scroll-mode"%string;
     activeStateClassName :=
       or_default (opt_activeStateClassName options) "scroll-enabled"%string |}.

(** The state variables of an instance, under the names of the source. *)
Record SmoothScroll : Type := mkSmoothScroll {
  settings : Settings;
  stepTime : value;
  currentTime : value;
  scrollActive : value;
  scrollDirection : value;
  growingDuration : value;
  cumulativeScrollQuantity : value;
  frameRate : value;
  frameRateValues : list num;
  finalFrameRate : value;
  isTabActive : value
}.

(** The assignments of the constructor, before [this.initialize()]. *)
Definition construct (options : Options) : SmoothScroll :=
  {| settings := merge_settings options;
     stepTime := VNull;
     currentTime := VNull;
     scrollActive := VNull;
     scrollDirection := VNull;
     growingDuration := VNull;
     cumulativeScrollQuantity := VNull;
     frameRate := VNull;
     frameRateValues := [];
     finalFrameRate := VNull;
     isTabActive := VNull |}.

Definition set_stepTime (v : value) (o : SmoothScroll) : SmoothScroll :=
  mkSmoothScroll (settings o) v (currentTime o) (scrollActive o)
    (scrollDirection o) (growingDuration o) (cumulativeScrollQuantity o)
    (frameRate o) (frameRateValues o) (finalFrameRate o) (isTabActive o).

Definition set_currentTime (v : value) (o : SmoothScroll) : SmoothScroll :=
  mkSmoothScroll (settings o) (stepTime o) v (scrollActive o)
    (scrollDirection o) (growingDuration o) (cumulativeScrollQuantity o)
    (frameRate o) (frameRateValues o) (finalFrameRate o) (isTabActive o).

Definition set_scrollActive (v : value) (o : SmoothScroll) : SmoothScroll :=
  mkSmoothScroll (settings o) (stepTime o) (currentTime o) v
    (scrollDirection o) (growingDuration o) (cumulativeScrollQuantity o)
    (frameRate o) (frameRateValues o) (finalFrameRate o) (isTabActive o).

Definition set_scrollDirection (v : value) (o : SmoothScroll) : SmoothScroll :=
  mkSmoothScroll (settings o) (stepTime o) (currentTime o) (scrollActive o)
    v (growingDuration o) (cumulativeScrollQuantity o)
    (frameRate o) (frameRateValues o) (finalFrameRate o) (isTabActive o).

Definition set_growingDuration (v : value) (o : SmoothScroll) : SmoothScroll :=
  mkSmoothScroll (settings o) (stepTime o) (currentTime o) (scrollActive o)
    (scrollDirection o) v (cumulativeScrollQuantity o)
    (frameRate o) (frameRateValues o) (finalFrameRate o) (isTabActive o).

Definition set_cumulativeScrollQuantity (v : value) (o : SmoothScroll)
  : SmoothScroll :=
  mkSmoothScroll (settings o) (stepTime o) (currentTime o) (scrollActive o)
    (scrollDirection o) (growingDuration o) v
    (frameRate o) (frameRateValues o) (finalFrameRate o) (isTabActive o).

Definition set_frameRate (v : value) (o : SmoothScroll) : SmoothScroll :=
  mkSmoothScroll (settings o) (stepTime o) (currentTime o) (scrollActive o)
    (scrollDirection o) (growingDuration o) (cumulativeScrollQuantity o)
    v (frameRateValues o) (finalFrameRate o) (isTabActive o).

Definition set_frameRateValues (l : list num) (o : SmoothScroll)
  : SmoothScroll :=
  mkSmoothScroll (settings o) (stepTime o) (currentTime o) (scrollActive o)
    (scrollDirection o) (growingDuration o) (cumulativeScrollQuantity o)
    (frameRate o) l (finalFrameRate o) (isTabActive o).

Definition set_finalFrameRate (v : value) (o : SmoothScroll) : SmoothScroll :=
  mkSmoothScroll (settings o) (stepTime o) (currentTime o) (scrollActive o)
    (scrollDirection o) (growingDuration o) (cumulativeScrollQuantity o)
    (frameRate o) (frameRateValues o) v (isTabActive o).

Definition set_isTabActive (v : value) (o : SmoothScroll) : SmoothScroll :=
  mkSmoothScroll (settings o) (stepTime o) (currentTime o) (scrollActive o)
    (scrollDirection o) (growingDuration o) (cumulativeScrollQuantity o)
    (frameRate o) (frameRateValues o) (finalFrameRate o) v.

(* ================================================================= *)
(** ** The Bezier functions *)

(** [p[i]]: an index past the end reads [undefined], NaN in arithmetic. *)
Definition idx (p : list num) (i : nat) : num := nth i p NaN.

(** [calculateBezierDerivative(t, p)] *)
Definition calculateBezierDerivative (t : num) (p : list num) : num :=
  (n_ 3 * pow2 (n_ 1 - t) * (idx p 1 - idx p 0)
   + n_ 6 * (n_ 1 - t) * t * (idx p 2 - idx p 1)
   + n_ 3 * pow2 t * (idx p 3 - idx p 2))%js.

Definition Px : list num := [n_ 0; n_ 1; n_ 1; n_ 3].
Definition Py : list num := [n_ 1; n_ 1; n_ 0; n_ 0].

(** The body of [calculateSpeedVariation] once [t] is known. *)
Definition speedAt (t : num) : num :=
  let derivativePx := calculateBezierDerivative t Px in
  let derivativePy := calculateBezierDerivative t Py in
  (- round (derivativePy / derivativePx * n_ 10000) / n_ 10000)%js.

(** [calculateSpeedVariation()] *)
Definition calculateSpeedVariation (o : SmoothScroll) : num :=
  let t := (to_number (currentTime o) / to_number (growingDuration o))%js in
  speedAt t.

(* ================================================================= *)
(** ** The host and the methods *)

(** The variables [count], [run] and [time] that one call of
    [measureFrameRate] shares with the callbacks it creates.  [count] starts
    at 0 and only ever grows by one: it is kept as an integer. *)
Record Closure : Type := mkClosure {
  count : Z;
  run : bool;
  time : num
}.

(** What the program hands to [requestAnimationFrame] and [setTimeout]. *)
Inductive Callback : Type :=
| PerformSmoothScrolling
| CountFrames (c : nat)      (* [countFrames] of measurement [c] *)
| StopCounting (c : nat)     (* [() => { run = false; }] of measurement [c] *)
| NextMeasure (c : nat).     (* the second timeout of measurement [c] *)

Record World : Type := mkWorld {
  this : SmoothScroll;
  closures : list Closure;            (* measurement [c] is entry [c] *)
  frameQueue : list Callback;         (* requestAnimationFrame, pending *)
  timerQueue : list (num * Callback); (* setTimeout, pending, with delays *)
  scrolled : list num;                (* [top] of each scrollBy, oldest first *)
  hidden : bool;                      (* document.hidden *)
  listening : bool;                   (* the two wheel listeners are attached *)
  watching : bool;                    (* the visibilitychange listener is *)
  observing : bool;                   (* the button observer is observing *)
  windows : list num                  (* [time] of each measurement started *)
}.

Definition with_this (f : SmoothScroll -> SmoothScroll) (w : World) : World :=
  mkWorld (f (this w)) (closures w) (frameQueue w) (timerQueue w)
    (scrolled w) (hidden w) (listening w) (watching w) (observing w)
    (windows w).

Definition set_closures (l : list Closure) (w : World) : World :=
  mkWorld (this w) l (frameQueue w) (timerQueue w)
    (scrolled w) (hidden w) (listening w) (watching w) (observing w)
    (windows w).

Definition set_frameQueue (l : list Callback) (w : World) : World :=
  mkWorld (this w) (closures w) l (timerQueue w)
    (scrolled w) (hidden w) (listening w) (watching w) (observing w)
    (windows w).

Definition set_timerQueue (l : list (num * Callback)) (w : World) : World :=
  mkWorld (this w) (closures w) (frameQueue w) l
    (scrolled w) (hidden w) (listening w) (watching w) (observing w)
    (windows w).

Definition set_hidden (b : bool) (w : World) : World :=
  mkWorld (this w) (closures w) (frameQueue w) (timerQueue w)
    (scrolled w) b (listening w) (watching w) (observing w) (windows w).

Definition set_listening (b : bool) (w : World) : World :=
  mkWorld (this w) (closures w) (frameQueue w) (timerQueue w)
    (scrolled w) (hidden w) b (watching w) (observing w) (windows w).

Definition set_watching (b : bool) (w : World) : World :=
  mkWorld (this w) (closures w) (frameQueue w) (timerQueue w)
    (scrolled w) (hidden w) (listening w) b (observing w) (windows w).

Definition set_observing (b : bool) (w : World) : World :=
  mkWorld (this w) (closures w) (frameQueue w) (timerQueue w)
    (scrolled w) (hidden w) (listening w) (watching w) b (windows w).

(** [window.requestAnimationFrame(cb)] *)
Definition requestAnimationFrame (cb : Callback) (w : World) : World :=
  set_frameQueue (frameQueue w ++ [cb]) w.

(** [setTimeout(cb, delay)] *)
Definition setTimeout (cb : Callback) (delay : num) (w : World) : World :=
  set_timerQueue (timerQueue w ++ [(delay, cb)]) w.

(** [window.scrollBy({ top, left: 0, behavior: 'instant' })] *)
Definition scrollBy (top : num) (w : World) : World :=
  mkWorld (this w) (closures w) (frameQueue w) (timerQueue w)
    (scrolled w ++ [top]) (hidden w) (listening w) (watching w) (observing w)
    (windows w).

(** The scroll quantity of one step (line 131).  The product is rounded as an
    exact rational: where the double product of the source falls on the other
    side of a half, the source's value is one tenth away from this one. *)
Definition scrollQuantityOf (o : SmoothScroll) : num :=
  let smoothing := calculateSpeedVariation o in
  (round (smoothing * to_number (scrollSpeedMultiplier (settings o))
          * to_number (scrollDirection o) * n_ 10) / n_ 10)%js.

(** [performSmoothScrolling()] *)
Definition performSmoothScrolling (w : World) : World :=
  let w := with_this (set_scrollActive (VBool true)) w in
  let scrollQuantity := scrollQuantityOf (this w) in
  let w := scrollBy scrollQuantity w in
  let w :=
    with_this (fun o =>
      set_currentTime
        (VNum (to_number (currentTime o) + to_number (stepTime o))%js) o) w in
  let w :=
    if (to_number (currentTime (this w))
        >? to_number (growingDuration (this w)))%js
    then with_this (set_scrollActive (VBool false)) w
    else w in
  if truthy (scrollActive (this w))
  then requestAnimationFrame PerformSmoothScrolling w
  else w.

(** A wheel event, as far as the program reads it. *)
Record WheelEvent : Type := mkWheelEvent { deltaY : num }.

(** [event.deltaY > 0 ? 1 : -1] *)
Definition directionOf (event : WheelEvent) : num :=
  if (deltaY event >? n_ 0)%js then n_ 1 else n_ (-1).

(** The body of [handleWheelEvent] that works on the object (lines 143-162). *)
Definition wheelUpdate (event : WheelEvent) (o : SmoothScroll) : SmoothScroll :=
  let o :=
    if strict_eq (scrollDirection o) VUndefined
    then set_scrollDirection (VNum (directionOf event)) o
    else o in
  let newScrollDirection := directionOf event in
  let grown (o : SmoothScroll) :=
    VNum (round (to_number (growingDuration o)
                 * to_number (durationIncreaseFactor (settings o))))%js in
  let o :=
    if strict_eq (VNum newScrollDirection) (scrollDirection o) then
      if truthy (scrollActive o) then
        if truthy (enableLimitDuration (settings o)) then
          if (to_number (growingDuration o)
              <? to_number (limitDuration (settings o)))%js
          then set_growingDuration (grown o) o
          else set_growingDuration (limitDuration (settings o)) o
        else set_growingDuration (grown o) o
      else
        set_cumulativeScrollQuantity (VNum (n_ 0))
          (set_growingDuration (scrollDuration (settings o))
             (set_currentTime (VNum (n_ 0)) o))
    else
      set_cumulativeScrollQuantity (VNum (n_ 0))
        (set_growingDuration
           (VNum (round (to_number (scrollDuration (settings o))
                         * to_number (durationIncreaseFactor (settings o))))%js)
           o) in
  let o := set_scrollDirection (VNum newScrollDirection) o in
  set_stepTime (VNum (round (n_ 1000 / to_number (frameRate o)))%js) o.

(** [handleWheelEvent(event)] *)
Definition handleWheelEvent (event : WheelEvent) (w : World) : World :=
  let w := with_this (wheelUpdate event) w in
  if negb (truthy (scrollActive (this w)))
  then requestAnimationFrame PerformSmoothScrolling w
  else w.

(** [scrollModeToggle(action)]; both listeners go on and off together.
    [preventDefaultScroll] only calls [event.preventDefault()], which leaves
    the object alone. *)
Definition scrollModeToggle (action : string) (w : World) : World :=
  if String.eqb action "enable" then set_listening true w
  else if String.eqb action "disable" then set_listening false w
  else w.

(** Replace entry [c] of a list; nothing happens past the end. *)
Fixpoint update_nth {A : Type} (c : nat) (a : A) (l : list A) : list A :=
  match l, c with
  | [], _ => []
  | _ :: r, O => a :: r
  | x :: r, S c' => x :: update_nth c' a r
  end.

(** Drop entry [k] of a list. *)
Fixpoint remove_nth {A : Type} (k : nat) (l : list A) : list A :=
  match l, k with
  | [], _ => []
  | _ :: r, O => r
  | x :: r, S k' => x :: remove_nth k' r
  end.

Definition set_closure (c : nat) (cl : Closure) (w : World) : World :=
  set_closures (update_nth c cl (closures w)) w.

(** [countFrames()] of measurement [c] (lines 200-208). *)
Definition countFrames (c : nat) (w : World) : World :=
  if negb (truthy (isTabActive (this w))) then w
  else
    match nth_error (closures w) c with
    | None => w
    | Some cl =>
        let cl := mkClosure (count cl + 1) (run cl) (time cl) in
        let w := set_closure c cl w in
        if run cl then requestAnimationFrame (CountFrames c) w
        else
          let w :=
            with_this (set_frameRate
              (VNum (round (of_Z (count cl) * n_ 1000 / time cl))%js)) w in
          if eqb (time cl) (n_ 3000)
          then with_this (fun o =>
                 set_frameRateValues
                   (frameRateValues o ++ [to_number (frameRate o)]) o) w
          else w
    end.

(** [() => { run = false; }] of measurement [c] (line 210). *)
Definition stopCounting (c : nat) (w : World) : World :=
  match nth_error (closures w) c with
  | None => w
  | Some cl => set_closure c (mkClosure (count cl) false (time cl)) w
  end.

(** [measureFrameRate(time)], up to the point where its timeouts are set;
    the second timeout's callback is [nextMeasure] below. *)
Definition measureFrameRate (time0 : num) (w : World) : World :=
  if negb (truthy (isTabActive (this w))) then w
  else
    let c := List.length (closures w) in
    let w :=
      mkWorld (this w) (closures w ++ [mkClosure 0 true time0])
        (frameQueue w) (timerQueue w) (scrolled w) (hidden w) (listening w)
        (watching w) (observing w) (windows w ++ [time0]) in
    (* setCountPeriod() *)
    let w := setTimeout (StopCounting c) time0 w in
    let w := countFrames c w in
    setTimeout (NextMeasure c) (time0 + n_ 100)%js w.

(** [array.reduce((a, b) => a + b)]; the source calls it on three elements
    or more. *)
Definition reduce_add (l : list num) : num :=
  match l with
  | [] => NaN
  | x :: r => fold_left add r x
  end.

(** The callback of the second timeout of [measureFrameRate]
    (lines 214-219). *)
Definition nextMeasure (c : nat) (w : World) : World :=
  match nth_error (closures w) c with
  | None => w
  | Some cl =>
      let time' :=
        if (time cl <? n_ 2000)%js then (time cl * n_ 2)%js else n_ 3000 in
      let w := set_closure c (mkClosure (count cl) (run cl) time') w in
      if (List.length (frameRateValues (this w)) <? 3)%nat
      then measureFrameRate time' w
      else
        with_this (fun o =>
          set_finalFrameRate
            (VNum (round (reduce_add (frameRateValues o)
                          / of_Z (Z.of_nat (List.length (frameRateValues o)))))%js)
            o) w
  end.

(** [handleTabVisibilityChange()] *)
Definition handleTabVisibilityChange (w : World) : World :=
  if hidden w then with_this (set_isTabActive (VBool false)) w
  else
    let w := with_this (set_isTabActive (VBool true)) w in
    if strict_eq (finalFrameRate (this w)) VNull
    then measureFrameRate (n_ 500) w
    else w.

(** [initialize()].  [mobile] is the outcome of the user-agent test.  Both
    [addEventListener('load', ...)] calls receive the result of a call, so
    the two methods run at once, during construction. *)
Definition initialize (mobile : bool) (w : World) : World :=
  if negb mobile
  then
    let w := handleTabVisibilityChange w in
    let w := set_watching true w in
    let w := scrollModeToggle "enable" w in
    set_observing true w
  else w.

(** [new SmoothScroll(options)] on a page that is hidden or not. *)
Definition newSmoothScroll (options : Options) (mobile pageHidden : bool)
  : World :=
  initialize mobile
    (mkWorld (construct options) [] [] [] [] pageHidden false false false []).

(** *** The host's events *)

Inductive HostEvent : Type :=
| EvWheel (event : WheelEvent)   (* the user turns the wheel *)
| EvFrame                        (* the browser renders a frame *)
| EvTimer (k : nat)              (* pending timeout [k] expires *)
| EvVisibility (h : bool)        (* document.hidden becomes [h] *)
| EvButton (active : bool).      (* the button's class changes; [active]
                                    tells whether the active class is on *)

Definition runCallback (cb : Callback) (w : World) : World :=
  match cb with
  | PerformSmoothScrolling => performSmoothScrolling w
  | CountFrames c => countFrames c w
  | StopCounting c => stopCounting c w
  | NextMeasure c => nextMeasure c w
  end.

(** One event.  A frame runs the callbacks that were pending when it began;
    those they request wait for the next frame.  The host is free to let
    timeouts expire in any order here; the schedules used below follow the
    delays. *)
Definition dispatch (e : HostEvent) (w : World) : World :=
  match e with
  | EvWheel event => if listening w then handleWheelEvent event w else w
  | EvFrame =>
      fold_left (fun w cb => runCallback cb w) (frameQueue w)
        (set_frameQueue [] w)
  | EvTimer k =>
      match nth_error (timerQueue w) k with
      | None => w
      | Some (_, cb) =>
          runCallback cb (set_timerQueue (remove_nth k (timerQueue w)) w)
      end
  | EvVisibility h =>
      let w := set_hidden h w in
      if watching w then handleTabVisibilityChange w else w
  | EvButton active =>
      if observing w
      then scrollModeToggle (if active then "enable" else "disable") w
      else w
  end.

(** A sequence of events, in order. *)
Definition runEvents (es : list HostEvent) (w : World) : World :=
  fold_left (fun w e => dispatch e w) es w.

(** The states the page can be in. *)
Inductive reachable (w0 : World) : World -> Prop :=
| reach_start : reachable w0 w0
| reach_step : forall w e, reachable w0 w -> reachable w0 (dispatch e w).

(** The page of the repository: [new SmoothScroll({})] on a visible desktop
    page. *)
Definition page : World := newSmoothScroll no_options false false.

(* ================================================================= *)
(** ** Scenarios *)

(** A wheel event with an integer [deltaY]. *)
Definition wheel (z : Z) : HostEvent := EvWheel (mkWheelEvent (n_ z)).

(** The first 500ms measurement at 60 frames per second: 28 frames inside
    the window, the timeout that ends it, and the frame that records the
    rate (30 counted frames, hence 60). *)
Definition calibrate60 : list HostEvent :=
  repeat EvFrame 28 ++ [EvTimer 0; EvFrame].

(** One downward gesture played to its end on the calibrated page: a wheel
    event and the 46 steps of 17ms that exhaust its 770ms. *)
Definition finishedGesture : list HostEvent :=
  calibrate60 ++ [wheel 100] ++ repeat EvFrame 46.

(** [k] consecutive downward ticks: the first starts a gesture, a frame
    makes it active, the others arrive while it is active. *)
Definition ticks (k : nat) : list HostEvent :=
  match k with
  | O => []
  | S k' => [wheel 100; EvFrame] ++ repeat (wheel 100) k'
  end.

(** [growingDuration] after each of the first [k] ticks played from [w]. *)
Definition durationsOfTicks (k : nat) (w : World) : list value :=
  map (fun i => growingDuration (this (runEvents (ticks i) w))) (seq 1 k).

(* ================================================================= *)
(** ** The vocabulary of the properties *)

(** The part of the object the animator works on. *)
Definition animatorOf (o : SmoothScroll)
  : Settings * value * value * value * value * value :=
  (settings o, stepTime o, currentTime o, scrollActive o, scrollDirection o,
   growingDuration o).

(** While the gesture is flagged active, [currentTime > growingDuration]
    does not hold. *)
Definition withinTotal (o : SmoothScroll) : Prop :=
  truthy (scrollActive o) = true ->
  (to_number (currentTime o) >? to_number (growingDuration o))%js = false.

(** The two derivatives and the speed at a finite [t], as rationals. *)
Definition dPxQ (t : Q) : Q := (3 * ((1 - t) * (1 - t)) + 6 * (t * t))%Q.
Definition dPyQ (t : Q) : Q := (- (6) * (t * (1 - t)))%Q.
Definition speedQ (t : Q) : Q :=
  (- inject_Z (Qfloor (dPyQ t / dPxQ t * 10000 + (1 # 2))) / 10000)%Q.

(** A gesture running downward, 170ms into its 847ms. *)
Definition midGesture : SmoothScroll :=
  set_scrollDirection (VNum (n_ 1))
    (set_growingDuration (VNum (n_ 847))
       (set_currentTime (VNum (n_ 170))
          (set_scrollActive (VBool true)
             (set_frameRate (VNum (n_ 60)) (construct no_options))))).

(** The gesture after the wheel has turned back late: upward, 799ms into a
    duration that is 770ms again. *)
Definition turnedBackLate : SmoothScroll :=
  set_scrollDirection (VNum (n_ (-1)))
    (set_growingDuration (VNum (n_ 770))
       (set_currentTime (VNum (n_ 799)) midGesture)).

(** A scroll by [top] goes along, or against, the stored direction. *)
Definition alongDirection (o : SmoothScroll) (top : num) : bool :=
  (top * to_number (scrollDirection o) >? n_ 0)%js.

Definition againstDirection (o : SmoothScroll) (top : num) : bool :=
  (top * to_number (scrollDirection o) <? n_ 0)%js.




(** One measurement window on a visible page: [n] frames inside the window,
    the timeout that clears [run], the frame in which [countFrames] records
    the rate, and, 100ms after the window, the second timeout. *)
Definition windowEvents (n : nat) : list HostEvent :=
  repeat EvFrame n ++ [EvTimer 0; EvFrame; EvTimer 0].

(** The rate recorded for a 3000ms window with [n] frames inside it:
    [countFrames] ran once when the window opened and once after it. *)
Definition rateOf (n : nat) : num :=
  round (of_Z (Z.of_nat n + 2) * n_ 1000 / n_ 3000)%js.

(** A window in which [k] further frames, with nothing of the measurement
    left to run, pass before the second timeout. *)
Definition unhurriedWindow (n k : nat) : list HostEvent :=
  repeat EvFrame n ++ [EvTimer 0] ++ repeat EvFrame (S k) ++ [EvTimer 0].

(** The page is hidden while a window is open, both timeouts of the window
    expire, the page is shown again and a frame is rendered. *)
Definition hiddenOverTimeouts : list HostEvent :=
  [EvVisibility true; EvTimer 0; EvTimer 0; EvVisibility false; EvFrame].

(** On a visible page both timeouts of a window expire before the next frame
    is rendered: the frame comes more than 100ms after the window closed. *)
Definition timeoutsBeforeFrame : list HostEvent :=
  [EvTimer 0; EvTimer 0; EvFrame].

(* ================================================================= *)
(** ** The button, and further vocabulary *)

(** The four switches of the host that no callback touches. *)
Definition flagsOf (w : World) : bool * bool * bool * bool :=
  (hidden w, listening w, watching w, observing w).

(** Frames and timeouts: the events that carry a gesture on. *)
Definition frameOrTimer (e : HostEvent) : bool :=
  match e with EvFrame | EvTimer _ => true | _ => false end.

(** The world of an instance that attached nothing and scheduled nothing. *)
Definition inert (options : Options) (w : World) : Prop :=
  exists h, w = mkWorld (construct options) [] [] [] [] h false false false [].

(** The window lengths of the estimator. *)
Definition windowLength (t : num) : Prop :=
  t = n_ 500 \/ t = n_ 1000 \/ t = n_ 2000 \/ t = n_ 3000.

(** What holds of the variables of every measurement. *)
Definition closureOK (cl : Closure) : Prop :=
  (0 <= count cl)%Z /\ windowLength (time cl).

(** The shapes [frameRate], [stepTime], [currentTime] and [scrollDirection]
    take. *)
Definition rateOK (v : value) : Prop :=
  v = VNull \/ exists z, (0 <= z)%Z /\ v = VNum (of_Z z).

Definition stepOK (v : value) : Prop :=
  v = VNull \/ v = VNum PInf \/ exists z, (0 <= z)%Z /\ v = VNum (of_Z z).

Definition timeOK (v : value) : Prop :=
  v = VNull \/ v = VNum PInf \/ exists q, (0 <= q)%Q /\ v = VNum (Fin q).

Definition directionOK (v : value) : Prop :=
  v = VNull \/ v = VNum (n_ 1) \/ v = VNum (n_ (-1)).

(** The invariant of the page: the shapes above, and a final rate only
    with three samples. *)
Definition wellFormed (w : World) : Prop :=
  Forall closureOK (closures w)
  /\ Forall windowLength (windows w)
  /\ rateOK (frameRate (this w))
  /\ stepOK (stepTime (this w))
  /\ timeOK (currentTime (this w))
  /\ directionOK (scrollDirection (this w))
  /\ (strict_eq (finalFrameRate (this w)) VNull = false ->
      (3 <= List.length (frameRateValues (this w)))%nat).

(** The six windows of a calibration at 60 frames per second. *)
Definition fullCalibration : list HostEvent :=
  windowEvents 28 ++ windowEvents 58 ++ windowEvents 118
  ++ windowEvents 178 ++ windowEvents 178 ++ windowEvents 178.

(** The callbacks that are animation steps. *)
Definition isStep (cb : Callback) : bool :=
  match cb with PerformSmoothScrolling => true | _ => false end.

(** The number of pending calls of [performSmoothScrolling]. *)
Definition pendingSteps (w : World) : nat :=
  List.length (filter isStep (frameQueue w)).

(** What [performSmoothScrolling] does to the object
    ([performSmoothScrolling_effect] below relates the two). *)
Definition stepObject (o : SmoothScroll) : SmoothScroll :=
  let o := set_scrollActive (VBool true) o in
  let o :=
    set_currentTime (VNum (to_number (currentTime o) + to_number (stepTime o))%js) o in
  if (to_number (currentTime o) >? to_number (growingDuration o))%js
  then set_scrollActive (VBool false) o
  else o.

(** What a gesture consists of: the animator's fields, the pending steps
    and the scroll log.  The callbacks of the estimator leave it alone. *)
Definition gestureView (w : World)
  : (Settings * value * value * value * value * value) * nat * list num :=
  (animatorOf (this w), pendingSteps w, scrolled w).

(** The callbacks of one frame, in order. *)
Definition runCallbacks (cbs : list Callback) (w : World) : World :=
  fold_left (fun w cb => runCallback cb w) cbs w.

(** An active gesture has a step pending, in the queue or among the
    callbacks [rest] of the frame being run. *)
Definition stepPendingWhenActive (rest : list Callback) (w : World) : Prop :=
  truthy (scrollActive (this w)) = true ->
  (1 <= pendingSteps w + List.length (filter isStep rest))%nat.

(** No step is pending, in the frame queue or behind a timeout. *)
Definition quiet (w : World) : Prop :=
  pendingSteps w = 0%nat
  /\ Forall (fun t => isStep (snd t) = false) (timerQueue w).

(** The wheel events. *)
Definition isWheel (e : HostEvent) : bool :=
  match e with EvWheel _ => true | _ => false end.

(** The toggle button, as far as script.js and the observer read it. *)
Record Button : Type := mkButton {
  classList : list string;
  innerHTML : string
}.

(** [classList.contains(token)] *)
Definition contains (token : string) (l : list string) : bool :=
  existsb (String.eqb token) l.

(** [classList.toggle(token)]: the token is removed when present and added
    otherwise. *)
Definition toggle (token : string) (l : list string) : list string :=
  if contains token l
  then filter (fun s => negb (String.eqb token s)) l
  else l ++ [token].

(** The click listener of script.js. *)
Definition clickListener (b : Button) : Button :=
  let l := toggle "scroll-enabled" (classList b) in
  mkButton l (if contains "scroll-enabled" l then "Toggle On" else "Toggle Off").

(** The page with its button: the element that script.js selects is the one
    the instance observes (both select [.scroll-mode] by default). *)
Record Document : Type := mkDocument {
  world : World;
  button : Button
}.

(** A click: the listener runs, the class attribute has changed, and the
    observer's callback reads the class the settings name. *)
Definition click (d : Document) : Document :=
  let b := clickListener (button d) in
  let isActive :=
    contains (activeStateClassName (settings (this (world d)))) (classList b) in
  mkDocument (dispatch (EvButton isActive) (world d)) b.

(** A gesture that has grown past the limit on an instance constructed with
    [enableLimitDuration: false]. *)
Definition unlimitedGesture : SmoothScroll :=
  set_scrollDirection (VNum (n_ 1))
    (set_growingDuration (VNum (n_ 2661))
       (set_scrollActive (VBool true)
          (construct
             (mkOptions None None None None (Some (VBool false)) None None)))).

(** The page of the repository with its button, not yet clicked. *)
Definition pageWithButton : Document :=
  mkDocument page (mkButton ["scroll-mode"%string] "Toggle Off").

(** The same page constructed with [activeStateClassName: 'on']. *)
Definition pageWithOtherClass : Document :=
  mkDocument
    (newSmoothScroll
       (mkOptions None None None None None None (Some "on"%string))
       false false)
    (mkButton ["scroll-mode"%string] "Toggle Off").

(* ================================================================= *)
(** ** Starting a gesture *)

Lemma calibrate60_frameRate :
  frameRate (this (runEvents calibrate60 page)) = VNum (n_ 60).
Proof. vm_compute. reflexivity. Qed.

(** A wheel event that finds the stored direction equal to its own and no
    gesture active starts one as the state machine describes. *)
Lemma wheel_idle_same_direction (event : WheelEvent) (o : SmoothScroll) :
  scrollDirection o = VNum (directionOf event) ->
  truthy (scrollActive o) = false ->
  let o' := wheelUpdate event o in
  scrollDirection o' = VNum (directionOf event)
  /\ currentTime o' = VNum (n_ 0)
  /\ growingDuration o' = scrollDuration (settings o).
Proof.
  intros Hd Ha.
  assert (He : eqb (directionOf event) (directionOf event) = true).
  { unfold directionOf. destruct (gt (deltaY event) (n_ 0)); reflexivity. }
  unfold wheelUpdate. rewrite Hd. cbn [strict_eq]. rewrite Hd, He, Ha.
  cbn. auto.
Qed.

(** The test of line 143 compares with [undefined]; the constructor stores
    [null], so the test never holds on a constructed object and the first
    event falls in the branch of a changed direction. *)
Lemma wheel_on_null_direction (event : WheelEvent) (o : SmoothScroll) :
  scrollDirection o = VNull ->
  let o' := wheelUpdate event o in
  growingDuration o'
  = VNum (round (to_number (scrollDuration (settings o))
                 * to_number (durationIncreaseFactor (settings o))))%js
  /\ currentTime o' = currentTime o
  /\ scrollDirection o' = VNum (directionOf event).
Proof.
  intros Hd. unfold wheelUpdate. rewrite Hd. cbn [strict_eq]. rewrite Hd.
  cbn. auto.
Qed.

(** C1: on the page as constructed, the first wheel event (deltaY = 100)
    leaves direction 1 but a total duration of 770, not 700, and does not
    set the elapsed time to 0: it stays [null]; one animation step is
    requested. *)
Theorem first_wheel_event_after_construction :
  let w := dispatch (wheel 100) page in
  scrollDirection (this w) = VNum (n_ 1)
  /\ growingDuration (this w) = VNum (n_ 770)
  /\ currentTime (this w) = VNull
  /\ scrollActive (this w) = VNull
  /\ frameQueue w = frameQueue page ++ [PerformSmoothScrolling].
Proof. vm_compute. repeat split; reflexivity. Qed.

(** A wheel event without vertical movement counts as an upward one. *)
Lemma direction_of_zero_delta : directionOf (mkWheelEvent (n_ 0)) = n_ (-1).
Proof. reflexivity. Qed.

(** The same branch is taken when a gesture has ended and the wheel turns the
    other way: the duration becomes 770 and the elapsed time keeps the 782 of
    the finished gesture, so the single step that follows ends the new
    gesture at once. *)
Lemma wheel_other_direction_after_finished_gesture :
  let w0 := runEvents finishedGesture page in
  let w1 := dispatch (wheel (-100)) w0 in
  let w2 := dispatch EvFrame w1 in
  scrollActive (this w0) = VBool false
  /\ growingDuration (this w1) = VNum (n_ 770)
  /\ currentTime (this w1) = VNum (n_ 782)
  /\ scrollDirection (this w1) = VNum (n_ (-1))
  /\ scrollActive (this w2) = VBool false
  /\ frameQueue w2 = [].
Proof. vm_compute. repeat split; reflexivity. Qed.

(** C2: six downward ticks on the calibrated, freshly constructed page give
    the durations 770, 847, 932, 1025, 1128, 1241: the sequence of the claim
    without its first term. *)
Theorem six_ticks_on_a_fresh_page :
  durationsOfTicks 6 (runEvents calibrate60 page)
  = map (fun z => VNum (n_ z)) [770; 847; 932; 1025; 1128; 1241]%Z.
Proof. vm_compute. reflexivity. Qed.

(** After a finished gesture in the same direction the first tick takes the
    starting branch and the six durations are those of the claim. *)
Lemma six_ticks_after_a_finished_gesture :
  durationsOfTicks 6 (runEvents finishedGesture page)
  = map (fun z => VNum (n_ z)) [700; 770; 847; 932; 1025; 1128]%Z.
Proof. vm_compute. reflexivity. Qed.

(* ================================================================= *)
(** ** The Bezier derivative at the ends of the curve *)

(** C5 as stated fails at [t = 1]: the derivative along [Px] is 6 there. *)
Lemma bezier_derivative_Px_at_one :
  calculateBezierDerivative (n_ 1) Px = n_ 6
  /\ eqb (calculateBezierDerivative (n_ 1) Px) (n_ 0) = false.
Proof. vm_compute. split; reflexivity. Qed.

(** C5 (amended): with [Px = [0, 1, 1, 3]] the derivative is 3 at [t = 0]
    and 6 at [t = 1]; it is the derivative along [Py = [1, 1, 0, 0]] that is
    0 at [t = 1], and with it the speed. *)
Theorem bezier_derivative_boundaries :
  calculateBezierDerivative (n_ 0) Px = n_ 3
  /\ calculateBezierDerivative (n_ 1) Px = n_ 6
  /\ calculateBezierDerivative (n_ 1) Py = n_ 0
  /\ eqb (speedAt (n_ 1)) (n_ 0) = true.
Proof. vm_compute. repeat split; reflexivity. Qed.

(* ================================================================= *)
(** ** The step size *)

(** The branches of the handler leave the measured rate alone. *)
Lemma wheelUpdate_stepTime (event : WheelEvent) (o : SmoothScroll) :
  stepTime (wheelUpdate event o)
  = VNum (round (n_ 1000 / to_number (frameRate o)))%js.
Proof.
  unfold wheelUpdate.
  repeat match goal with
         | |- context [if ?c then _ else _] => destruct c
         end; reflexivity.
Qed.

Lemma handleWheelEvent_this (event : WheelEvent) (w : World) :
  this (handleWheelEvent event w) = wheelUpdate event (this w).
Proof.
  unfold handleWheelEvent.
  destruct (negb (truthy (scrollActive (this (with_this (wheelUpdate event) w)))));
    reflexivity.
Qed.

(** C9 as stated fails on the page as constructed: no rate has been measured
    yet and the step time of the first wheel event is [Infinity]. *)
Lemma step_time_infinite_without_calibration :
  let w := dispatch (wheel 100) page in
  frameRate (this page) = VNull
  /\ stepTime (this w) = VNum PInf
  /\ is_finite (to_number (stepTime (this w))) = false.
Proof. vm_compute. repeat split; reflexivity. Qed.

(** C9 (amended): every wheel event sets
    [stepTime = round(1000 / frameRate)] from the rate last measured; while
    that rate is still [null] the result is [Infinity], no default is put in
    its place, and the animation step that follows ends the gesture. *)
Theorem step_time_from_frame_rate (event : WheelEvent) (w : World) :
  let w' := handleWheelEvent event w in
  stepTime (this w') = VNum (round (n_ 1000 / to_number (frameRate (this w))))%js
  /\ (frameRate (this w) = VNull ->
      stepTime (this w') = VNum PInf
      /\ (is_finite (to_number (currentTime (this w'))) = true ->
          is_finite (to_number (growingDuration (this w'))) = true ->
          scrollActive (this (performSmoothScrolling w')) = VBool false)).
Proof.
  cbv zeta. rewrite handleWheelEvent_this, wheelUpdate_stepTime.
  split; [reflexivity|]. intros Hnull. rewrite Hnull. split; [reflexivity|].
  intros Hc Hg. unfold performSmoothScrolling. cbn.
  rewrite handleWheelEvent_this, wheelUpdate_stepTime, Hnull.
  destruct (to_number (currentTime (wheelUpdate event (this w))));
    try discriminate.
  destruct (to_number (growingDuration (wheelUpdate event (this w))));
    try discriminate.
  reflexivity.
Qed.

Lemma step_time_from_frame_rate_witness :
  stepTime (this (handleWheelEvent (mkWheelEvent (n_ 100)) page)) = VNum PInf
  /\ scrollActive
       (this (performSmoothScrolling
                (handleWheelEvent (mkWheelEvent (n_ 100)) page)))
     = VBool false.
Proof.
  destruct (step_time_from_frame_rate (mkWheelEvent (n_ 100)) page)
    as [_ H].
  destruct (H eq_refl) as [H1 H2].
  split; [exact H1 | apply H2; reflexivity].
Defined.

(* ================================================================= *)
(** ** What each method leaves untouched *)

Ltac split_branches :=
  repeat match goal with
         | |- context [if ?c then _ else _] => destruct c
         | |- context [match nth_error ?l ?c with _ => _ end] =>
             destruct (nth_error l c)
         end.

Lemma countFrames_animator (c : nat) (w : World) :
  animatorOf (this (countFrames c w)) = animatorOf (this w).
Proof. unfold countFrames. split_branches; reflexivity. Qed.

Lemma stopCounting_animator (c : nat) (w : World) :
  animatorOf (this (stopCounting c w)) = animatorOf (this w).
Proof. unfold stopCounting. split_branches; reflexivity. Qed.

Lemma measureFrameRate_animator (t : num) (w : World) :
  animatorOf (this (measureFrameRate t w)) = animatorOf (this w).
Proof.
  unfold measureFrameRate. split_branches; [reflexivity|].
  unfold setTimeout at 1. cbn [this set_timerQueue].
  rewrite countFrames_animator. reflexivity.
Qed.

Lemma nextMeasure_animator (c : nat) (w : World) :
  animatorOf (this (nextMeasure c w)) = animatorOf (this w).
Proof.
  unfold nextMeasure. destruct (nth_error (closures w) c); [|reflexivity].
  match goal with
  | |- context [if (?a <? ?b)%nat then _ else _] => destruct (a <? b)%nat
  end.
  - rewrite measureFrameRate_animator. reflexivity.
  - reflexivity.
Qed.

Lemma handleTabVisibilityChange_animator (w : World) :
  animatorOf (this (handleTabVisibilityChange w)) = animatorOf (this w).
Proof.
  unfold handleTabVisibilityChange. destruct (hidden w); [reflexivity|].
  match goal with
  | |- context [if ?c then _ else _] => destruct c
  end; [rewrite measureFrameRate_animator|]; reflexivity.
Qed.

Lemma scrollModeToggle_this (action : string) (w : World) :
  this (scrollModeToggle action w) = this w.
Proof.
  unfold scrollModeToggle.
  destruct (String.eqb action "enable"); [reflexivity|].
  destruct (String.eqb action "disable"); reflexivity.
Qed.


Lemma fold_callbacks_kept (P : World -> Prop) :
  (forall cb w, P w -> P (runCallback cb w)) ->
  forall cbs w, P w -> P (fold_left (fun w cb => runCallback cb w) cbs w).
Proof.
  intros HP cbs. induction cbs as [|cb cbs IH]; intros w H; cbn; auto.
Qed.

Lemma runEvents_app (es1 es2 : list HostEvent) (w : World) :
  runEvents (es1 ++ es2) w = runEvents es2 (runEvents es1 w).
Proof. unfold runEvents. apply fold_left_app. Qed.

Lemma runEvents_reachable (w0 : World) (es : list HostEvent) :
  reachable w0 (runEvents es w0).
Proof.
  induction es as [|e es IH] using rev_ind.
  - constructor.
  - rewrite runEvents_app. cbn. constructor. exact IH.
Qed.

(* ================================================================= *)
(** ** Elapsed time against total duration *)

Lemma withinTotal_animator (o o' : SmoothScroll) :
  animatorOf o = animatorOf o' -> withinTotal o -> withinTotal o'.
Proof.
  unfold animatorOf, withinTotal. intros H. injection H as _ _ Hc Ha _ Hg.
  rewrite <- Hc, <- Ha, <- Hg. auto.
Qed.

Lemma performSmoothScrolling_withinTotal (w : World) :
  withinTotal (this (performSmoothScrolling w)).
Proof.
  unfold performSmoothScrolling, withinTotal.
  cbn [this with_this scrollBy set_scrollActive set_currentTime currentTime
       growingDuration scrollActive stepTime to_number].
  destruct (gt _ _) eqn:E; cbn; [discriminate|].
  intros _. exact E.
Qed.

(** C3 as stated fails.  Fifteen ticks bring the duration to 2661; 148 steps
    of 17ms later the gesture is still active at 2516ms, and the next tick
    clamps the duration to 2500.  A reversal does the same sooner: the
    duration falls from 847 to 770 under an elapsed time of 799. *)
Lemma active_with_elapsed_past_total :
  let clamp :=
    runEvents (finishedGesture ++ ticks 15 ++ repeat EvFrame 147
               ++ [wheel 100]) page in
  let reversal :=
    runEvents (calibrate60 ++ ticks 2 ++ repeat EvFrame 46
               ++ [wheel (-100)]) page in
  (reachable page clamp
   /\ scrollActive (this clamp) = VBool true
   /\ currentTime (this clamp) = VNum (n_ 2516)
   /\ growingDuration (this clamp) = VNum (n_ 2500)
   /\ ~ withinTotal (this clamp))
  /\ (reachable page reversal
      /\ scrollActive (this reversal) = VBool true
      /\ currentTime (this reversal) = VNum (n_ 799)
      /\ growingDuration (this reversal) = VNum (n_ 770)
      /\ ~ withinTotal (this reversal)).
Proof.
  cbv zeta. unfold withinTotal.
  split; (split; [apply runEvents_reachable|]);
    (split; [vm_compute; reflexivity|]);
    (split; [vm_compute; reflexivity|]);
    (split; [vm_compute; reflexivity|]);
    intros H; specialize (H eq_refl); vm_compute in H; discriminate.
Qed.

(** C3 (amended): after every animation step an active gesture has
    [currentTime <= growingDuration]; the step whose increment passes the
    duration clears the flag and requests no further step; and every event
    other than a wheel event keeps the property.  (A wheel event can lower
    the duration under the elapsed time of an active gesture.) *)
Theorem elapsed_within_total_after_each_step (w : World) :
  let w' := performSmoothScrolling w in
  withinTotal (this w')
  /\ ((to_number (currentTime (this w)) + to_number (stepTime (this w))
       >? to_number (growingDuration (this w)))%js = true ->
      scrollActive (this w') = VBool false /\ frameQueue w' = frameQueue w)
  /\ (forall e, (forall event, e <> EvWheel event) ->
                withinTotal (this w) -> withinTotal (this (dispatch e w))).
Proof.
  cbv zeta. split; [apply performSmoothScrolling_withinTotal|]. split.
  - intros H. unfold performSmoothScrolling.
    cbn [this with_this scrollBy set_scrollActive set_currentTime currentTime
         growingDuration scrollActive stepTime to_number].
    rewrite H. cbn. auto.
  - intros e Hw H. destruct e as [event| |k|h|b]; cbn [dispatch].
    + exfalso. eapply Hw. reflexivity.
    + apply (fold_callbacks_kept (fun w => withinTotal (this w))); [|exact H].
      intros cb w1 H1. destruct cb; cbn [runCallback].
      * apply performSmoothScrolling_withinTotal.
      * eapply withinTotal_animator; [symmetry; apply countFrames_animator|auto].
      * eapply withinTotal_animator; [symmetry; apply stopCounting_animator|auto].
      * eapply withinTotal_animator; [symmetry; apply nextMeasure_animator|auto].
    + destruct (nth_error (timerQueue w) k) as [[d cb]|]; [|exact H].
      destruct cb; cbn [runCallback].
      * apply performSmoothScrolling_withinTotal.
      * eapply withinTotal_animator; [symmetry; apply countFrames_animator|auto].
      * eapply withinTotal_animator; [symmetry; apply stopCounting_animator|auto].
      * eapply withinTotal_animator; [symmetry; apply nextMeasure_animator|auto].
    + destruct (watching (set_hidden h w)); [|exact H].
      eapply withinTotal_animator;
        [symmetry; apply handleTabVisibilityChange_animator|exact H].
    + destruct (observing w); [|exact H].
      rewrite scrollModeToggle_this. exact H.
Qed.

Lemma elapsed_within_total_after_each_step_witness :
  let w := runEvents (calibrate60 ++ ticks 1 ++ repeat EvFrame 44) page in
  withinTotal (this (performSmoothScrolling w))
  /\ scrollActive (this (performSmoothScrolling w)) = VBool false
  /\ withinTotal (this (dispatch EvFrame w)).
Proof.
  cbv zeta.
  destruct (elapsed_within_total_after_each_step
              (runEvents (calibrate60 ++ ticks 1 ++ repeat EvFrame 44) page))
    as (H1 & H2 & H3).
  split; [exact H1|]. split.
  - apply H2. vm_compute. reflexivity.
  - apply H3; [discriminate|].
    intros _. vm_compute. reflexivity.
Defined.

(* ================================================================= *)
(** ** The speed curve *)

Section SpeedCurve.

Local Open Scope Q_scope.

Lemma dPx_Fin (t : Q) :
  exists q, calculateBezierDerivative (Fin t) Px = Fin q /\ q == dPxQ t.
Proof.
  eexists. split; [reflexivity|].
  unfold dPxQ, n_, of_Z, inject_Z. ring.
Qed.

Lemma dPy_Fin (t : Q) :
  exists q, calculateBezierDerivative (Fin t) Py = Fin q /\ q == dPyQ t.
Proof.
  eexists. split; [reflexivity|].
  unfold dPyQ, n_, of_Z, inject_Z. ring.
Qed.

Lemma dPxQ_pos (t : Q) : 0 < dPxQ t.
Proof. unfold dPxQ. nra. Qed.

(** At a finite [t] the speed is finite: the denominator is never zero. *)
Lemma speedAt_Fin (t : Q) :
  exists v, speedAt (Fin t) = Fin v /\ v == speedQ t.
Proof.
  unfold speedAt.
  destruct (dPx_Fin t) as (x & -> & Hx). destruct (dPy_Fin t) as (y & -> & Hy).
  assert (Hnz : Qeq_bool x 0 = false).
  { destruct (Qeq_bool x 0) eqn:E; [|reflexivity].
    apply Qeq_bool_eq in E. pose proof (dPxQ_pos t) as Hp.
    rewrite <- Hx, E in Hp. discriminate. }
  cbn [div]. rewrite Hnz. cbn [div mul n_ of_Z round neg].
  change (Qeq_bool (inject_Z 10000) 0) with false. cbv iota.
  eexists. split; [reflexivity|].
  unfold speedQ. rewrite Hx, Hy. unfold inject_Z. reflexivity.
Qed.

Lemma ratio_cross (a b : Q) :
  0 <= (b - a) * (a + b + a * b - 1) ->
  dPyQ a * dPxQ b <= dPyQ b * dPxQ a.
Proof.
  intros H.
  assert (E : dPyQ b * dPxQ a - dPyQ a * dPxQ b
              == 18 * ((b - a) * (a + b + a * b - 1))).
  { unfold dPyQ, dPxQ. ring. }
  lra.
Qed.

Lemma ratio_le (a b : Q) :
  dPyQ a * dPxQ b <= dPyQ b * dPxQ a ->
  dPyQ a / dPxQ a <= dPyQ b / dPxQ b.
Proof.
  intros H. pose proof (dPxQ_pos a) as Ha. pose proof (dPxQ_pos b) as Hb.
  apply Qle_shift_div_l; [exact Hb|].
  assert (E : dPyQ a / dPxQ a * dPxQ b == dPyQ a * dPxQ b / dPxQ a).
  { field. intros E. rewrite E in Ha. discriminate. }
  rewrite E. apply Qle_shift_div_r; assumption.
Qed.

Lemma speedQ_antitone (a b : Q) :
  dPyQ a / dPxQ a <= dPyQ b / dPxQ b -> speedQ b <= speedQ a.
Proof.
  intros H. unfold speedQ.
  assert (Hf : (Qfloor (dPyQ a / dPxQ a * 10000 + (1 # 2))
                <= Qfloor (dPyQ b / dPxQ b * 10000 + (1 # 2)))%Z).
  { apply Qfloor_resp_le. revert H.
    generalize (dPyQ a / dPxQ a) (dPyQ b / dPxQ b). intros ra rb H. lra. }
  rewrite Zle_Qle in Hf.
  unfold Qdiv. apply Qmult_le_compat_r; [|discriminate].
  apply Qopp_le_compat. exact Hf.
Qed.

Lemma speedQ_nonneg (t : Q) : 0 <= t -> t <= 1 -> 0 <= speedQ t.
Proof.
  intros H0 H1. unfold speedQ.
  assert (Hr : dPyQ t / dPxQ t <= 0).
  { apply Qle_shift_div_r; [apply dPxQ_pos|]. unfold dPyQ.
    assert (0 <= t * (1 - t)) by (apply Qmult_le_0_compat; lra).
    lra. }
  assert (Hf : (Qfloor (dPyQ t / dPxQ t * 10000 + (1 # 2)) <= 0)%Z).
  { assert (Hlt : (Qfloor (dPyQ t / dPxQ t * 10000 + (1 # 2)) < 1)%Z).
    { rewrite Zlt_Qlt. eapply Qle_lt_trans; [apply Qfloor_le|].
      change (inject_Z 1) with 1. revert Hr.
      generalize (dPyQ t / dPxQ t). intros r Hr. lra. }
    lia. }
  rewrite Zle_Qle in Hf.
  unfold Qdiv. apply Qmult_le_0_compat; [|discriminate].
  apply (Qopp_le_compat _ 0). exact Hf.
Qed.

(** The speed climbs while [t^2 + 2t <= 1], that is up to [t = sqrt 2 - 1]. *)
Lemma speed_rises_before_peak (t1 t2 : Q) :
  0 <= t1 -> t1 <= t2 -> t2 * t2 + 2 * t2 <= 1 ->
  speedQ t1 <= speedQ t2.
Proof.
  intros H0 H12 Hp. apply speedQ_antitone, ratio_le.
  apply ratio_cross.
  assert (E : (t1 - t2) * (t2 + t1 + t2 * t1 - 1)
              == (t2 - t1) * (1 - t1 - t2 - t1 * t2)) by ring.
  rewrite E. apply Qmult_le_0_compat; nra.
Qed.

(** C6 as stated fails: the speed is 0 at [t = 0] and 0.6667 at
    [t = 1/2]. *)
Lemma speed_rises_from_zero :
  exists v1 v2,
    speedAt (Fin 0) = Fin v1 /\ speedAt (Fin (1 # 2)) = Fin v2
    /\ v1 == 0 /\ v2 == 6667 # 10000 /\ Qabs v1 < Qabs v2.
Proof.
  eexists. eexists. split; [vm_compute; reflexivity|].
  split; [vm_compute; reflexivity|]. repeat split.
Qed.

(** C6 (amended): with [Px = [0, 1, 1, 3]] and [Py = [1, 1, 0, 0]] the
    magnitude of the speed is non-increasing from the peak of the curve on:
    for [t1 <= t2 <= 1] with [t1 >= sqrt 2 - 1] (written
    [1 <= t1^2 + 2 t1], [0 <= t1]), [|v(t2)| <= |v(t1)|]. *)
Theorem speed_non_increasing_after_peak (t1 t2 : Q) :
  0 <= t1 -> 1 <= t1 * t1 + 2 * t1 -> t1 <= t2 -> t2 <= 1 ->
  exists v1 v2,
    speedAt (Fin t1) = Fin v1 /\ speedAt (Fin t2) = Fin v2
    /\ Qabs v2 <= Qabs v1.
Proof.
  intros H0 Hp H12 H1.
  destruct (speedAt_Fin t1) as (v1 & E1 & Hv1).
  destruct (speedAt_Fin t2) as (v2 & E2 & Hv2).
  exists v1, v2. split; [exact E1|]. split; [exact E2|].
  rewrite Hv1, Hv2.
  rewrite (Qabs_pos (speedQ t1)) by (apply speedQ_nonneg; lra).
  rewrite (Qabs_pos (speedQ t2)) by (apply speedQ_nonneg; lra).
  apply speedQ_antitone, ratio_le.
  apply ratio_cross. apply Qmult_le_0_compat; nra.
Qed.

Lemma speed_non_increasing_after_peak_witness :
  exists v1 v2,
    speedAt (Fin (1 # 2)) = Fin v1 /\ speedAt (Fin (3 # 4)) = Fin v2
    /\ Qabs v2 <= Qabs v1.
Proof.
  apply (speed_non_increasing_after_peak (1 # 2) (3 # 4));
    vm_compute; discriminate.
Defined.

End SpeedCurve.

(* ================================================================= *)
(** ** Reversing the direction *)

Section Reversal.

Local Open Scope Q_scope.

Lemma round_nonneg (x : Q) : 0 <= x -> (0 <= Qfloor (x + (1 # 2)))%Z.
Proof.
  intros H. change 0%Z with (Qfloor 0). apply Qfloor_resp_le. lra.
Qed.

Lemma round_nonpos (x : Q) : x <= 0 -> (Qfloor (x + (1 # 2)) <= 0)%Z.
Proof.
  intros H. change 0%Z with (Qfloor (1 # 2)). apply Qfloor_resp_le. lra.
Qed.

Lemma directionOf_cases (event : WheelEvent) :
  directionOf event = Fin 1 \/ directionOf event = Fin (- (1)).
Proof.
  unfold directionOf. destruct (gt (deltaY event) (n_ 0)); auto.
Qed.

(** Inside the curve, [0 <= currentTime <= growingDuration], a step scrolls
    by nothing or in the stored direction. *)
Lemma scrollQuantity_sign (o : SmoothScroll) (c g m d : Q) :
  currentTime o = VNum (Fin c) -> growingDuration o = VNum (Fin g) ->
  scrollSpeedMultiplier (settings o) = VNum (Fin m) ->
  scrollDirection o = VNum (Fin d) ->
  0 <= c -> c <= g -> 0 < g -> 0 <= m -> d = 1 \/ d = - (1) ->
  exists q, scrollQuantityOf o = Fin q /\ 0 <= q * d.
Proof.
  intros Hc Hg Hm Hd H0 Hcg Hg0 Hm0 Hd1.
  unfold scrollQuantityOf, calculateSpeedVariation.
  rewrite Hc, Hg, Hm, Hd. cbn [to_number div].
  assert (Hnz : Qeq_bool g 0 = false).
  { destruct (Qeq_bool g 0) eqn:E; [|reflexivity].
    apply Qeq_bool_eq in E. rewrite E in Hg0. discriminate. }
  rewrite Hnz.
  destruct (speedAt_Fin (c / g)) as (v & -> & Hv).
  assert (Hv0 : 0 <= v).
  { rewrite Hv. apply speedQ_nonneg.
    - apply Qle_shift_div_l; lra.
    - apply Qle_shift_div_r; lra. }
  cbn [mul n_ of_Z round].
  change (Qeq_bool (inject_Z 10) 0) with false. cbv iota.
  eexists. split; [reflexivity|].
  assert (Hvm : 0 <= v * m) by (apply Qmult_le_0_compat; assumption).
  unfold Qdiv. change (/ inject_Z 10) with (1 # 10).
  change (inject_Z 10) with 10.
  destruct Hd1 as [E|E]; subst d.
  - assert (Hf : (0 <= Qfloor (v * m * 1 * 10 + (1 # 2)))%Z).
    { apply round_nonneg. lra. }
    rewrite Zle_Qle in Hf. change (inject_Z 0) with 0 in Hf. lra.
  - assert (Hf : (Qfloor (v * m * - (1) * 10 + (1 # 2)) <= 0)%Z).
    { apply round_nonpos. lra. }
    rewrite Zle_Qle in Hf. change (inject_Z 0) with 0 in Hf. lra.
Qed.

(** C7 as stated fails.  The gesture below has grown to 847ms and runs
    downward; the wheel turns back at 799ms.  The duration becomes 770 and
    the direction -1, yet the single step that follows scrolls by +0.4, the
    sign of the steps before, and ends the gesture. *)
Lemma delta_after_reversal_keeps_sign :
  let before := runEvents (calibrate60 ++ ticks 2 ++ repeat EvFrame 46) page in
  let after := runEvents [wheel (-100); EvFrame] before in
  scrollDirection (this before) = VNum (n_ 1)
  /\ forallb (fun x => negb (lt x (n_ 0))) (scrolled before) = true
  /\ existsb (fun x => gt x (n_ 0)) (scrolled before) = true
  /\ scrollDirection (this after) = VNum (n_ (-1))
  /\ growingDuration (this after) = VNum (n_ 770)
  /\ scrolled after = scrolled before ++ [Fin (4 # 10)]
  /\ scrollActive (this after) = VBool false.
Proof. vm_compute. repeat split; reflexivity. Qed.

(** C7 (amended): a wheel event against the stored direction sets
    [growingDuration = round(scrollDuration * durationIncreaseFactor)] and
    stores the new direction, leaving [currentTime] as it was; a later step
    taken with [0 <= currentTime <= growingDuration] (and a non-negative
    speed multiplier) scrolls by nothing or in the new direction. *)
Theorem reversal_resets_duration_and_flips_direction
  (event : WheelEvent) (o : SmoothScroll) :
  scrollDirection o = VNum (- directionOf event)%js ->
  let o' := wheelUpdate event o in
  growingDuration o'
  = VNum (round (to_number (scrollDuration (settings o))
                 * to_number (durationIncreaseFactor (settings o))))%js
  /\ scrollDirection o' = VNum (directionOf event)
  /\ currentTime o' = currentTime o
  /\ settings o' = settings o
  /\ forall (o2 : SmoothScroll) (c g m : Q),
       scrollDirection o2 = scrollDirection o' ->
       currentTime o2 = VNum (Fin c) -> growingDuration o2 = VNum (Fin g) ->
       scrollSpeedMultiplier (settings o2) = VNum (Fin m) ->
       0 <= c -> c <= g -> 0 < g -> 0 <= m ->
       exists q d, scrollQuantityOf o2 = Fin q
                   /\ directionOf event = Fin d /\ 0 <= q * d.
Proof.
  intros Hd. cbv zeta.
  assert (Hne : strict_eq (VNum (directionOf event)) (scrollDirection o) = false).
  { rewrite Hd. destruct (directionOf_cases event) as [-> | ->]; reflexivity. }
  assert (Hu : strict_eq (scrollDirection o) VUndefined = false).
  { rewrite Hd. reflexivity. }
  assert (E : wheelUpdate event o
              = set_stepTime (VNum (round (n_ 1000 / to_number (frameRate o)))%js)
                  (set_scrollDirection (VNum (directionOf event))
                     (set_cumulativeScrollQuantity (VNum (n_ 0))
                        (set_growingDuration
                           (VNum (round (to_number (scrollDuration (settings o))
                                         * to_number (durationIncreaseFactor
                                                        (settings o))))%js)
                           o)))).
  { unfold wheelUpdate. rewrite Hu, Hne. reflexivity. }
  rewrite E. cbn [growingDuration scrollDirection currentTime settings
                  set_stepTime set_scrollDirection set_cumulativeScrollQuantity
                  set_growingDuration].
  repeat (split; [reflexivity|]).
  intros o2 c g m Hd2 Hc Hg Hm H0 Hcg Hg0 Hm0.
  destruct (directionOf_cases event) as [Ed | Ed]; rewrite Ed in Hd2 |- *.
  - destruct (scrollQuantity_sign o2 c g m 1 Hc Hg Hm Hd2 H0 Hcg Hg0 Hm0)
      as (q & Hq & Hs); [left; reflexivity|]. exists q, 1. auto.
  - destruct (scrollQuantity_sign o2 c g m (- (1)) Hc Hg Hm Hd2 H0 Hcg Hg0 Hm0)
      as (q & Hq & Hs); [right; reflexivity|]. exists q, (- (1)). auto.
Qed.

Lemma reversal_resets_duration_and_flips_direction_witness :
  let o' := wheelUpdate (mkWheelEvent (n_ (-100))) midGesture in
  growingDuration o' = VNum (n_ 770)
  /\ scrollDirection o' = VNum (n_ (-1))
  /\ exists q d, scrollQuantityOf o' = Fin q
                 /\ Fin d = n_ (-1) /\ 0 <= q * d.
Proof.
  cbv zeta.
  destruct (reversal_resets_duration_and_flips_direction
              (mkWheelEvent (n_ (-100))) midGesture eq_refl)
    as (H1 & H2 & _ & _ & H5).
  split; [exact H1|]. split; [exact H2|].
  destruct (H5 (wheelUpdate (mkWheelEvent (n_ (-100))) midGesture)
              (170 # 1) (770 # 1) (12 # 1))
    as (q & d & Hq & Hd & Hs);
    try reflexivity; try (vm_compute; discriminate).
  exists q, d. split; [exact Hq|]. split; [symmetry; exact Hd | exact Hs].
Defined.

End Reversal.

(* ================================================================= *)
(** ** The duration limit *)




Section DurationBound.

Variables (f : Q) (sd L : Z).
Hypothesis factor_ge_1 : (1 <= f)%Q.
Hypothesis duration_nonneg : (0 <= sd)%Z.
Hypothesis duration_below_limit : (sd < L)%Z.










End DurationBound.





(* ================================================================= *)
(** ** The frame-rate estimator *)

Lemma nth_error_update_nth {A : Type} (c : nat) (a b : A) (l : list A) :
  nth_error l c = Some b -> nth_error (update_nth c a l) c = Some a.
Proof.
  revert c. induction l as [|x l IH]; intros [|c] H; try discriminate;
    cbn in *; auto.
Qed.

Lemma update_nth_twice {A : Type} (c : nat) (a b : A) (l : list A) :
  update_nth c a (update_nth c b l) = update_nth c a l.
Proof.
  revert c. induction l as [|x l IH]; intros [|c]; cbn; try reflexivity.
  rewrite IH. reflexivity.
Qed.

Lemma update_nth_same {A : Type} (c : nat) (a : A) (l : list A) :
  nth_error l c = Some a -> update_nth c a l = l.
Proof.
  revert c. induction l as [|x l IH]; intros [|c] H; try discriminate;
    cbn in *.
  - congruence.
  - rewrite IH; auto.
Qed.

(** While the window is open each frame adds one to [count] and asks for the
    next frame. *)
Lemma frames_inside_window (n : nat) :
  forall (w : World) (c : nat) (k : Z) (t : num),
    truthy (isTabActive (this w)) = true ->
    frameQueue w = [CountFrames c] ->
    nth_error (closures w) c = Some (mkClosure k true t) ->
    runEvents (repeat EvFrame n) w
    = set_closure c (mkClosure (k + Z.of_nat n) true t) w.
Proof.
  induction n as [|n IH]; intros w c k t Ha Hq Hc.
  - cbn [repeat runEvents fold_left]. unfold set_closure.
    rewrite Z.add_0_r, (update_nth_same c _ (closures w) Hc).
    destruct w; reflexivity.
  - change (repeat EvFrame (S n)) with ([EvFrame] ++ repeat EvFrame n).
    rewrite runEvents_app.
    assert (E : runEvents [EvFrame] w
                = set_closure c (mkClosure (k + 1) true t) w).
    { cbn [runEvents fold_left dispatch]. rewrite Hq.
      cbn [fold_left runCallback]. unfold countFrames.
      cbn [this set_frameQueue closures]. rewrite Ha, Hc.
      cbn [negb run count time set_closure requestAnimationFrame].
      unfold set_closure, requestAnimationFrame, set_closures, set_frameQueue.
      cbn. destruct w; cbn in *. rewrite Hq. reflexivity. }
    rewrite E.
    rewrite (IH _ c (k + 1)%Z t); try assumption.
    + unfold set_closure, set_closures. cbn. rewrite update_nth_twice.
      do 3 f_equal. lia.
    + cbn. eapply nth_error_update_nth, Hc.
Qed.

Lemma nth_error_last {A : Type} (l : list A) (a : A) :
  nth_error (l ++ [a]) (List.length l) = Some a.
Proof. induction l as [|x l IH]; cbn; auto. Qed.

Lemma update_nth_last {A : Type} (l : list A) (a b : A) :
  update_nth (List.length l) b (l ++ [a]) = l ++ [b].
Proof. induction l as [|x l IH]; cbn; [|rewrite IH]; reflexivity. Qed.

(** A measurement that passes its guard: a new closure, already counted
    once, one counting callback and the two timeouts. *)
Lemma measureFrameRate_visible (t : num) (w : World) :
  truthy (isTabActive (this w)) = true ->
  measureFrameRate t w
  = mkWorld (this w) (closures w ++ [mkClosure 1 true t])
      (frameQueue w ++ [CountFrames (List.length (closures w))])
      (timerQueue w ++ [(t, StopCounting (List.length (closures w)));
                        ((t + n_ 100)%js, NextMeasure (List.length (closures w)))])
      (scrolled w) (hidden w) (listening w) (watching w) (observing w)
      (windows w ++ [t]).
Proof.
  intros Ha. unfold measureFrameRate, countFrames, setTimeout.
  cbn [this closures set_timerQueue timerQueue]. rewrite Ha.
  cbn [negb]. rewrite nth_error_last.
  cbn [run count time Z.add]. unfold requestAnimationFrame, set_closure.
  cbn. rewrite update_nth_last, <- app_assoc. reflexivity.
Qed.

Lemma measureFrameRate_hidden (t : num) (w : World) :
  truthy (isTabActive (this w)) = false -> measureFrameRate t w = w.
Proof. intros Ha. unfold measureFrameRate. rewrite Ha. reflexivity. Qed.

Lemma measureFrameRate_samples (t : num) (w : World) :
  frameRateValues (this (measureFrameRate t w)) = frameRateValues (this w).
Proof.
  destruct (truthy (isTabActive (this w))) eqn:Ha.
  - rewrite measureFrameRate_visible by exact Ha. reflexivity.
  - rewrite measureFrameRate_hidden by exact Ha. reflexivity.
Qed.

Ltac frames_phase n c t :=
  match goal with
  | |- context [runEvents (repeat EvFrame n) ?w] =>
      rewrite (frames_inside_window n w c 1%Z (n_ t)) by reflexivity
  end.

(** Frames that find nothing to run change nothing. *)
Lemma frame_with_nothing_pending (w : World) :
  frameQueue w = [] -> dispatch EvFrame w = w.
Proof. intros H. destruct w; cbn in *. subst. reflexivity. Qed.

Lemma frames_with_nothing_pending (k : nat) (w : World) :
  frameQueue w = [] -> runEvents (repeat EvFrame k) w = w.
Proof.
  intros H. induction k as [|k IH]; [reflexivity|].
  change (runEvents (repeat EvFrame (S k)) w)
    with (runEvents (repeat EvFrame k) (dispatch EvFrame w)).
  rewrite (frame_with_nothing_pending w H). exact IH.
Qed.

(** After the frame that closes a window, further frames change nothing. *)
Lemma frames_after_window (k : nat) (w : World) :
  frameQueue (dispatch EvFrame w) = [] ->
  runEvents (repeat EvFrame (S k)) w = dispatch EvFrame w.
Proof.
  intros H.
  change (runEvents (repeat EvFrame (S k)) w)
    with (runEvents (repeat EvFrame k) (dispatch EvFrame w)).
  apply frames_with_nothing_pending, H.
Qed.

Ltac idle_phase k :=
  match goal with
  | |- context [runEvents (repeat EvFrame (S k)) ?w] =>
      rewrite (frames_after_window k w) by reflexivity
  end.

(** C4: the estimator keeps a sample that no 3000ms window produced.  The
    page is [n] frames into its third window, of 2000ms.  Either the page is
    hidden while the two timeouts of that window expire and is then shown
    again, or it stays visible and both timeouts expire before the next
    frame.  The second timeout has set the [time] that [countFrames] reads
    to 3000, so the frame that follows records
    [round(count * 1000 / 3000)] for the frames counted in the 2000ms window
    and keeps it as a sample.  In the first run no 3000ms window was ever
    started; in the second the 3000ms window has only just opened. *)
Theorem sample_kept_from_a_2000ms_window (n1 n2 n : nat) :
  let inThird :=
    runEvents (windowEvents n1 ++ windowEvents n2 ++ repeat EvFrame n) page in
  let shown := runEvents hiddenOverTimeouts inThird in
  let late := runEvents timeoutsBeforeFrame inThird in
  windows inThird = [n_ 500; n_ 1000; n_ 2000]
  /\ nth_error (closures inThird) 2
     = Some (mkClosure (1 + Z.of_nat n) true (n_ 2000))
  /\ frameRateValues (this inThird) = []
  /\ windows shown = [n_ 500; n_ 1000; n_ 2000; n_ 500]
  /\ frameRate (this shown) = VNum (rateOf n)
  /\ frameRateValues (this shown) = [rateOf n]
  /\ windows late = [n_ 500; n_ 1000; n_ 2000; n_ 3000]
  /\ nth_error (closures late) 3 = Some (mkClosure 2 true (n_ 3000))
  /\ frameRate (this late) = VNum (rateOf n)
  /\ frameRateValues (this late) = [rateOf n].
Proof.
  cbv zeta. unfold windowEvents, hiddenOverTimeouts, timeoutsBeforeFrame, rateOf.
  replace (Z.of_nat n + 2)%Z with (1 + Z.of_nat n + 1)%Z by lia.
  repeat rewrite runEvents_app.
  frames_phase n1 0%nat 500%Z. frames_phase n2 1%nat 1000%Z.
  frames_phase n 2%nat 2000%Z.
  repeat split.
Qed.

(** Hidden 60 frames into the 2000ms window, the page keeps the sample 21
    where [round(62 * 1000 / 2000)] is 31. *)
Example rateOf_of_a_stale_window :
  rateOf 60 = n_ 21
  /\ round (of_Z (Z.of_nat 60 + 2) * n_ 1000 / n_ 2000)%js = n_ 31.
Proof. vm_compute. split; reflexivity. Qed.

(** X19: on a page that stays visible, when in every window at least one frame
    is rendered between the window's two timeouts, with any number of frames
    inside each window: the windows are 500, 1000, 2000, 3000, 3000, 3000;
    the samples kept are those of the three 3000ms windows, each
    [round(count * 1000 / 3000)]; no final rate exists before the third
    sample; the final rate is the rounded mean of the three; and nothing is
    left pending, so no further measurement starts. *)
Theorem calibration_schedule (n1 n2 n3 n4 n5 n6 k1 k2 k3 k4 k5 k6 : nat) :
  let five :=
    runEvents (unhurriedWindow n1 k1 ++ unhurriedWindow n2 k2
               ++ unhurriedWindow n3 k3 ++ unhurriedWindow n4 k4
               ++ unhurriedWindow n5 k5) page in
  let w := runEvents (unhurriedWindow n6 k6) five in
  windows w = [n_ 500; n_ 1000; n_ 2000; n_ 3000; n_ 3000; n_ 3000]
  /\ frameRateValues (this five) = [rateOf n4; rateOf n5]
  /\ finalFrameRate (this five) = VNull
  /\ frameRateValues (this w) = [rateOf n4; rateOf n5; rateOf n6]
  /\ finalFrameRate (this w)
     = VNum (round ((rateOf n4 + rateOf n5 + rateOf n6) / n_ 3))%js
  /\ frameQueue w = [] /\ timerQueue w = [].
Proof.
  cbv zeta. unfold unhurriedWindow, rateOf.
  replace (Z.of_nat n4 + 2)%Z with (1 + Z.of_nat n4 + 1)%Z by lia.
  replace (Z.of_nat n5 + 2)%Z with (1 + Z.of_nat n5 + 1)%Z by lia.
  replace (Z.of_nat n6 + 2)%Z with (1 + Z.of_nat n6 + 1)%Z by lia.
  repeat rewrite runEvents_app.
  frames_phase n1 0%nat 500%Z. idle_phase k1.
  frames_phase n2 1%nat 1000%Z. idle_phase k2.
  frames_phase n3 2%nat 2000%Z. idle_phase k3.
  frames_phase n4 3%nat 3000%Z. idle_phase k4.
  frames_phase n5 4%nat 3000%Z. idle_phase k5.
  frames_phase n6 5%nat 3000%Z. idle_phase k6.
  repeat split.
Qed.

Example rateOf_at_60_frames_per_second : rateOf 178 = n_ 60.
Proof. vm_compute. reflexivity. Qed.

(* ================================================================= *)
(** ** Hiding and showing the page *)

(** C8 as stated fails.  The page is hidden 11 frames into its second window
    (1000ms); the two timeouts of that window expire while it is hidden and
    the measurement that should follow stops at its guard.  When the page is
    shown again a third measurement starts with a 500ms window and a count
    of 1, as after construction. *)
Lemma measurement_restarts_when_visible_again :
  let inSecondWindow := runEvents (windowEvents 28 ++ repeat EvFrame 10) page in
  let hiddenPage :=
    runEvents [EvVisibility true; EvTimer 0; EvTimer 0] inSecondWindow in
  let shown := dispatch (EvVisibility false) hiddenPage in
  windows inSecondWindow = [n_ 500; n_ 1000]
  /\ nth_error (closures inSecondWindow) 1 = Some (mkClosure 11 true (n_ 1000))
  /\ finalFrameRate (this hiddenPage) = VNull
  /\ timerQueue hiddenPage = []
  /\ windows shown = [n_ 500; n_ 1000; n_ 500]
  /\ closures shown
     = closures hiddenPage ++ [mkClosure 1 true (n_ 500)]
  /\ timerQueue shown = [(n_ 500, StopCounting 2); (n_ 600, NextMeasure 2)].
Proof. vm_compute. repeat split; reflexivity. Qed.

(** C8 (amended): while the page is hidden a counting callback that runs
    neither counts nor asks for another frame, and no measurement starts;
    when the page is shown and no final rate exists, a new measurement
    starts from a 500ms window and a fresh count, the samples kept so far
    staying; when a final rate exists, showing the page starts nothing. *)
Theorem visibility_pauses_and_restarts (w : World) :
  watching w = true ->
  let hiddenPage := dispatch (EvVisibility true) w in
  let shown := dispatch (EvVisibility false) w in
  (isTabActive (this hiddenPage) = VBool false
   /\ (forall c, countFrames c hiddenPage = hiddenPage)
   /\ (forall t, measureFrameRate t hiddenPage = hiddenPage)
   /\ closures hiddenPage = closures w
   /\ frameQueue hiddenPage = frameQueue w)
  /\ (finalFrameRate (this w) = VNull ->
      windows shown = windows w ++ [n_ 500]
      /\ closures shown = closures w ++ [mkClosure 1 true (n_ 500)]
      /\ frameQueue shown
         = frameQueue w ++ [CountFrames (List.length (closures w))]
      /\ timerQueue shown
         = timerQueue w
           ++ [(n_ 500, StopCounting (List.length (closures w)));
               (n_ 600, NextMeasure (List.length (closures w)))]
      /\ frameRateValues (this shown) = frameRateValues (this w))
  /\ (strict_eq (finalFrameRate (this w)) VNull = false ->
      shown = with_this (set_isTabActive (VBool true)) (set_hidden false w)).
Proof.
  intros Hw. cbv zeta. cbn [dispatch]. cbn [watching set_hidden]. rewrite Hw.
  unfold handleTabVisibilityChange.
  cbn [hidden set_hidden this with_this finalFrameRate set_isTabActive].
  split; [|split].
  - repeat split.
  - intros Hn. rewrite Hn. cbn [strict_eq].
    rewrite measureFrameRate_visible by reflexivity.
    cbn. repeat split.
  - intros Hn. rewrite Hn. reflexivity.
Qed.

Lemma visibility_pauses_and_restarts_witness :
  let w := runEvents (windowEvents 28 ++ repeat EvFrame 10) page in
  windows (dispatch (EvVisibility false) w) = [n_ 500; n_ 1000; n_ 500]
  /\ dispatch (EvVisibility false)
       (runEvents (windowEvents 28 ++ windowEvents 58 ++ windowEvents 118
                   ++ windowEvents 178 ++ windowEvents 178 ++ windowEvents 178)
          page)
     = runEvents (windowEvents 28 ++ windowEvents 58 ++ windowEvents 118
                  ++ windowEvents 178 ++ windowEvents 178 ++ windowEvents 178)
         page.
Proof.
  cbv zeta. split.
  - destruct (visibility_pauses_and_restarts
                (runEvents (windowEvents 28 ++ repeat EvFrame 10) page)
                eq_refl)
      as (_ & H & _).
    destruct (H eq_refl) as (Hw & _). rewrite Hw. vm_compute. reflexivity.
  - destruct (visibility_pauses_and_restarts
                (runEvents (windowEvents 28 ++ windowEvents 58 ++ windowEvents 118
                            ++ windowEvents 178 ++ windowEvents 178
                            ++ windowEvents 178) page) eq_refl)
      as (_ & _ & H).
    rewrite H by (vm_compute; reflexivity). vm_compute. reflexivity.
Defined.

(* ================================================================= *)
(** ** Further properties of the code *)

Section Toggling.
Variable b : bool.

Lemma this_set_listening w : this (set_listening b w) = this w.
Proof. reflexivity. Qed.
Lemma closures_set_listening w : closures (set_listening b w) = closures w.
Proof. reflexivity. Qed.
Lemma with_this_set_listening f w :
  with_this f (set_listening b w) = set_listening b (with_this f w).
Proof. reflexivity. Qed.
Lemma scrollBy_set_listening x w :
  scrollBy x (set_listening b w) = set_listening b (scrollBy x w).
Proof. reflexivity. Qed.
Lemma requestAnimationFrame_set_listening cb w :
  requestAnimationFrame cb (set_listening b w)
  = set_listening b (requestAnimationFrame cb w).
Proof. reflexivity. Qed.
Lemma setTimeout_set_listening cb d w :
  setTimeout cb d (set_listening b w) = set_listening b (setTimeout cb d w).
Proof. reflexivity. Qed.
Lemma set_closure_set_listening c cl w :
  set_closure c cl (set_listening b w) = set_listening b (set_closure c cl w).
Proof. reflexivity. Qed.

Lemma if_set_listening (c : bool) w1 w2 :
  (if c then set_listening b w1 else set_listening b w2)
  = set_listening b (if c then w1 else w2).
Proof. destruct c; reflexivity. Qed.

Ltac push_listening :=
  repeat first
    [ rewrite this_set_listening
    | rewrite closures_set_listening
    | rewrite with_this_set_listening
    | rewrite scrollBy_set_listening
    | rewrite requestAnimationFrame_set_listening
    | rewrite setTimeout_set_listening
    | rewrite set_closure_set_listening
    | rewrite if_set_listening ].

Ltac split_ifs :=
  repeat (push_listening;
          match goal with
          | |- context [match nth_error ?l ?c with _ => _ end] =>
              destruct (nth_error l c)
          | |- (if ?c then _ else _) = _ => destruct c
          end).

Lemma performSmoothScrolling_set_listening w :
  performSmoothScrolling (set_listening b w)
  = set_listening b (performSmoothScrolling w).
Proof.
  unfold performSmoothScrolling. cbv zeta. push_listening.
  split_ifs; push_listening; reflexivity.
Qed.

Lemma countFrames_set_listening c w :
  countFrames c (set_listening b w) = set_listening b (countFrames c w).
Proof.
  unfold countFrames. cbv zeta. push_listening.
  split_ifs; push_listening; reflexivity.
Qed.

Lemma stopCounting_set_listening c w :
  stopCounting c (set_listening b w) = set_listening b (stopCounting c w).
Proof.
  unfold stopCounting. push_listening. split_ifs; push_listening; reflexivity.
Qed.

Lemma measureFrameRate_set_listening t w :
  measureFrameRate t (set_listening b w) = set_listening b (measureFrameRate t w).
Proof.
  unfold measureFrameRate. cbv zeta. push_listening.
  destruct (negb _); [reflexivity|].
  change (mkWorld (this w) (closures w ++ [mkClosure 0 true t])
        (frameQueue (set_listening b w)) (timerQueue (set_listening b w)) (scrolled (set_listening b w)) (hidden (set_listening b w)) (listening (set_listening b w))
        (watching (set_listening b w)) (observing (set_listening b w)) (windows (set_listening b w) ++ [t]))
    with (set_listening b (mkWorld (this w) (closures w ++ [mkClosure 0 true t])
        (frameQueue w) (timerQueue w) (scrolled w) (hidden w) (listening w)
        (watching w) (observing w) (windows w ++ [t]))).
  push_listening. rewrite countFrames_set_listening. push_listening. reflexivity.
Qed.

Lemma nextMeasure_set_listening c w :
  nextMeasure c (set_listening b w) = set_listening b (nextMeasure c w).
Proof.
  unfold nextMeasure. cbv zeta. push_listening.
  destruct (nth_error (closures w) c); [|reflexivity].
  push_listening. rewrite measureFrameRate_set_listening.
  push_listening. reflexivity.
Qed.

Lemma runCallback_set_listening (cb : Callback) (w : World) :
  runCallback cb (set_listening b w) = set_listening b (runCallback cb w).
Proof.
  destruct cb; cbn [runCallback].
  - apply performSmoothScrolling_set_listening.
  - apply countFrames_set_listening.
  - apply stopCounting_set_listening.
  - apply nextMeasure_set_listening.
Qed.
End Toggling.

Ltac split_plain :=
  repeat match goal with
         | |- context [match nth_error ?l ?c with _ => _ end] =>
             destruct (nth_error l c)
         | |- context [if ?c then _ else _] => destruct c
         end.

Lemma countFrames_flags c w : flagsOf (countFrames c w) = flagsOf w.
Proof. unfold countFrames. split_plain; reflexivity. Qed.

Lemma measureFrameRate_flags t w : flagsOf (measureFrameRate t w) = flagsOf w.
Proof.
  unfold measureFrameRate. destruct (negb _); [reflexivity|]. cbv zeta.
  change (flagsOf (setTimeout ?cb ?d ?x)) with (flagsOf x).
  rewrite countFrames_flags. reflexivity.
Qed.

Lemma runCallback_flags cb w : flagsOf (runCallback cb w) = flagsOf w.
Proof.
  destruct cb as [|c|c|c]; cbn [runCallback].
  - unfold performSmoothScrolling. split_plain; reflexivity.
  - apply countFrames_flags.
  - unfold stopCounting. split_plain; reflexivity.
  - unfold nextMeasure. destruct (nth_error (closures w) c); [|reflexivity].
    cbv zeta. destruct (Nat.ltb _ _); [|reflexivity].
    rewrite measureFrameRate_flags. reflexivity.
Qed.

Lemma fold_callbacks_flags cbs w :
  flagsOf (fold_left (fun w cb => runCallback cb w) cbs w) = flagsOf w.
Proof.
  revert w. induction cbs as [|cb cbs IH]; intros w; cbn; [reflexivity|].
  rewrite IH. apply runCallback_flags.
Qed.

Lemma fold_callbacks_set_listening b cbs w :
  fold_left (fun w cb => runCallback cb w) cbs (set_listening b w)
  = set_listening b (fold_left (fun w cb => runCallback cb w) cbs w).
Proof.
  revert w. induction cbs as [|cb cbs IH]; intros w; cbn; [reflexivity|].
  rewrite runCallback_set_listening. apply IH.
Qed.

Lemma dispatch_frameOrTimer_flags e w :
  frameOrTimer e = true -> flagsOf (dispatch e w) = flagsOf w.
Proof.
  destruct e as [ev| |k|h|a]; try discriminate; intros _; cbn [dispatch].
  - rewrite fold_callbacks_flags. reflexivity.
  - destruct (nth_error (timerQueue w) k) as [[d cb]|]; [|reflexivity].
    rewrite runCallback_flags. reflexivity.
Qed.

Lemma dispatch_set_listening b e w :
  frameOrTimer e = true ->
  dispatch e (set_listening b w) = set_listening b (dispatch e w).
Proof.
  destruct e as [ev| |k|h|a]; try discriminate; intros _; cbn [dispatch].
  - change (frameQueue (set_listening b w)) with (frameQueue w).
    change (set_frameQueue [] (set_listening b w))
      with (set_listening b (set_frameQueue [] w)).
    apply fold_callbacks_set_listening.
  - change (timerQueue (set_listening b w)) with (timerQueue w).
    destruct (nth_error (timerQueue w) k) as [[d cb]|]; [|reflexivity].
    change (set_timerQueue ?l (set_listening b w))
      with (set_listening b (set_timerQueue l w)).
    apply runCallback_set_listening.
Qed.

Lemma button_toggles (active : bool) (w : World) :
  observing w = true ->
  dispatch (EvButton active) w = set_listening active w.
Proof. intros H. cbn [dispatch]. rewrite H. destruct active; reflexivity. Qed.

(** X1: once the button's observer has switched the mode off, a wheel event
    changes nothing at all: no field, no scroll, no step requested.  The
    object and the pending frames are as before the switch, and switching on
    again attaches the listeners again. *)
Theorem wheel_ignored_after_disable (w : World) (event : WheelEvent) :
  observing w = true ->
  let off := dispatch (EvButton false) w in
  dispatch (EvWheel event) off = off
  /\ this off = this w /\ frameQueue off = frameQueue w
  /\ dispatch (EvButton true) off = set_listening true w.
Proof.
  intros H. cbv zeta. rewrite button_toggles by exact H.
  split; [reflexivity|]. split; [reflexivity|]. split; [reflexivity|].
  rewrite button_toggles by exact H. reflexivity.
Qed.

(** X2: switching the mode on or off does not touch a gesture in flight: any
    run of frames and timeouts gives the same state whether the switch comes
    before or after it, so the pending steps still scroll to the end of the
    gesture. *)
Theorem disable_keeps_gesture_in_flight (active : bool) (es : list HostEvent) :
  forallb frameOrTimer es = true ->
  forall w, observing w = true ->
  runEvents es (dispatch (EvButton active) w)
  = dispatch (EvButton active) (runEvents es w).
Proof.
  induction es as [|e es IH]; intros Hes w Hw; [reflexivity|].
  cbn in Hes. apply andb_prop in Hes as [He Hes].
  cbn [runEvents fold_left]. fold (runEvents es).
  rewrite button_toggles by exact Hw.
  rewrite dispatch_set_listening by exact He.
  assert (Hw' : observing (dispatch e w) = true).
  { pose proof (dispatch_frameOrTimer_flags e w He) as Hf.
    unfold flagsOf in Hf. congruence. }
  rewrite <- (button_toggles active _ Hw'). apply IH; assumption.
Qed.

Lemma dispatch_inert options e w : inert options w -> inert options (dispatch e w).
Proof.
  intros [h ->]. destruct e as [ev| |k|h'|a]; cbn [dispatch].
  - exists h. reflexivity.
  - exists h. reflexivity.
  - destruct k; exists h; reflexivity.
  - exists h'. reflexivity.
  - exists h. reflexivity.
Qed.

(** X3: on a user agent that matches the mobile test, the instance does
    nothing whatever happens: the object stays as constructed, nothing is
    scrolled, nothing is ever scheduled and the wheel listeners are off. *)
Theorem mobile_instance_is_inert (options : Options) (pageHidden : bool)
  (es : list HostEvent) :
  let w := runEvents es (newSmoothScroll options true pageHidden) in
  this w = construct options
  /\ scrolled w = [] /\ frameQueue w = [] /\ timerQueue w = []
  /\ closures w = [] /\ listening w = false.
Proof.
  cbv zeta.
  assert (H : inert options (runEvents es (newSmoothScroll options true pageHidden))).
  { induction es as [|e es IH] using rev_ind.
    - exists pageHidden. reflexivity.
    - rewrite runEvents_app. cbn. apply dispatch_inert, IH. }
  destruct H as [h ->]. repeat split.
Qed.

(** X4: an instance constructed while the page is hidden starts no
    measurement (no closure, no timeout, no frame callback); the first
    visibility change to visible brings it to exactly the state of an
    instance constructed on a visible page. *)
Theorem hidden_then_shown_is_visible_construction (options : Options) :
  let w := newSmoothScroll options false true in
  closures w = [] /\ timerQueue w = [] /\ frameQueue w = []
  /\ dispatch (EvVisibility false) w = newSmoothScroll options false false.
Proof. cbv zeta. repeat split. Qed.

Lemma Forall_update_nth {A : Type} (P : A -> Prop) (c : nat) (a : A) (l : list A) :
  P a -> Forall P l -> Forall P (update_nth c a l).
Proof.
  intros Ha H. revert c. induction H as [|x l Hx H IH]; intros [|c]; cbn;
    constructor; auto.
Qed.

Lemma round_div_nonneg (x t : Q) :
  (0 <= x)%Q -> (0 < t)%Q ->
  exists z, (0 <= z)%Z /\ round (Fin x / Fin t)%js = of_Z z.
Proof.
  intros Hx Ht. cbn [div].
  assert (Hnz : Qeq_bool t 0 = false).
  { destruct (Qeq_bool t 0) eqn:E; [|reflexivity].
    apply Qeq_bool_eq in E. rewrite E in Ht. discriminate. }
  rewrite Hnz. cbn [round]. eexists. split; [|reflexivity].
  change 0%Z with (Qfloor 0). apply Qfloor_resp_le.
  assert (0 <= x / t)%Q by (apply Qle_shift_div_l; lra).
  lra.
Qed.

Lemma windowLength_pos (t : num) :
  windowLength t -> exists q, t = Fin q /\ (0 < q)%Q.
Proof.
  intros [-> | [-> | [-> | ->]]]; eexists; (split; [reflexivity|reflexivity]).
Qed.

Lemma rate_of_count (k : Z) (t : num) :
  (0 <= k)%Z -> windowLength t ->
  rateOK (VNum (round (of_Z k * n_ 1000 / t))%js).
Proof.
  intros Hk Ht. destruct (windowLength_pos t Ht) as (q & -> & Hq).
  right. cbn [mul of_Z n_].
  destruct (round_div_nonneg (inject_Z k * inject_Z 1000) q) as (z & Hz & E).
  - rewrite Zle_Qle in Hk. change (inject_Z 0) with 0%Q in Hk.
    apply Qmult_le_0_compat; [exact Hk | discriminate].
  - exact Hq.
  - exists z. split; [exact Hz|]. rewrite E. reflexivity.
Qed.

Lemma step_of_rate (v : value) :
  rateOK v -> stepOK (VNum (round (n_ 1000 / to_number v))%js).
Proof.
  intros [-> | (z & Hz & ->)].
  - right. left. reflexivity.
  - cbn [to_number]. destruct (Z.eq_dec z 0) as [-> | Hne].
    + right. left. reflexivity.
    + right. right.
      destruct (round_div_nonneg 1000 (inject_Z z)) as (s & Hs & E).
      * discriminate.
      * change 0%Q with (inject_Z 0). rewrite <- Zlt_Qlt. lia.
      * exists s. split; [exact Hs|]. f_equal. exact E.
Qed.

Lemma time_plus_step (c s : value) :
  timeOK c -> stepOK s -> timeOK (VNum (to_number c + to_number s)%js).
Proof.
  intros [-> | [-> | (q & Hq & ->)]] [-> | [-> | (z & Hz & ->)]];
    cbn [to_number add of_Z];
    try (right; left; reflexivity);
    right; right; eexists; (split; [|reflexivity]).
  - lra.
  - rewrite Zle_Qle in Hz. change (inject_Z 0) with 0%Q in Hz. lra.
  - lra.
  - rewrite Zle_Qle in Hz. change (inject_Z 0) with 0%Q in Hz. lra.
Qed.

Ltac wf_split H :=
  destruct H as (Hcl & Hwin & Hrate & Hstep & Htime & Hdir & Hfin).

Lemma performSmoothScrolling_wellFormed (w : World) :
  wellFormed w -> wellFormed (performSmoothScrolling w).
Proof.
  intros H. wf_split H.
  assert (Ht : timeOK (VNum (to_number (currentTime (this w))
                             + to_number (stepTime (this w)))%js))
    by (apply time_plus_step; assumption).
  unfold performSmoothScrolling. cbv zeta.
  cbn [this with_this scrollBy set_scrollActive set_currentTime currentTime
       growingDuration scrollActive stepTime to_number].
  destruct (gt _ _); cbn [this with_this set_scrollActive scrollActive truthy];
    [|cbn [requestAnimationFrame set_frameQueue]];
    repeat split; assumption.
Qed.

Lemma wheelUpdate_fields (event : WheelEvent) (o : SmoothScroll) :
  let o' := wheelUpdate event o in
  frameRate o' = frameRate o /\ frameRateValues o' = frameRateValues o
  /\ finalFrameRate o' = finalFrameRate o
  /\ scrollDirection o' = VNum (directionOf event)
  /\ (currentTime o' = currentTime o \/ currentTime o' = VNum (n_ 0)).
Proof.
  cbv zeta. unfold wheelUpdate.
  repeat match goal with
         | |- context [if ?c then _ else _] => destruct c
         end; cbn; auto 10.
Qed.

Lemma handleWheelEvent_wellFormed (event : WheelEvent) (w : World) :
  wellFormed w -> wellFormed (handleWheelEvent event w).
Proof.
  intros H. wf_split H.
  assert (G : wellFormed (with_this (wheelUpdate event) w)).
  { destruct (wheelUpdate_fields event (this w)) as (E1 & E2 & E3 & E4 & E5).
    unfold wellFormed. cbn [this with_this closures windows].
    rewrite E1, E2, E3, E4, wheelUpdate_stepTime.
    repeat split; try assumption.
    - apply step_of_rate, Hrate.
    - destruct E5 as [-> | ->]; [assumption|].
      right. right. exists 0%Q. split; [discriminate | reflexivity].
    - destruct (directionOf_cases event) as [-> | ->]; [right; left | right; right];
        reflexivity. }
  unfold handleWheelEvent. cbv zeta. destruct (negb _); exact G.
Qed.

Lemma countFrames_wellFormed (c : nat) (w : World) :
  wellFormed w -> wellFormed (countFrames c w).
Proof.
  intros H. pose proof H as H0. wf_split H. unfold countFrames.
  destruct (negb _); [exact H0|].
  destruct (nth_error (closures w) c) as [cl|] eqn:Ec; [|exact H0].
  assert (Hc : closureOK cl).
  { eapply Forall_forall; [exact Hcl | eapply nth_error_In, Ec]. }
  destruct Hc as [Hk Ht]. cbv zeta. cbn [run count time].
  assert (Hcl' : Forall closureOK
                   (update_nth c (mkClosure (count cl + 1) (run cl) (time cl))
                      (closures w))).
  { apply Forall_update_nth; [|exact Hcl]. split; [cbn; lia | exact Ht]. }
  destruct (run cl).
  - repeat split; assumption.
  - assert (Hr : rateOK (VNum (round (of_Z (count cl + 1) * n_ 1000 / time cl))%js))
      by (apply rate_of_count; [lia | exact Ht]).
    destruct (eqb _ _);
      unfold wellFormed;
      cbn [this with_this set_closure set_closures closures windows frameRate
           set_frameRate set_frameRateValues stepTime currentTime
           scrollDirection finalFrameRate frameRateValues];
      repeat split; try assumption.
    intros Hf. specialize (Hfin Hf). rewrite length_app. lia.
Qed.

Lemma stopCounting_wellFormed (c : nat) (w : World) :
  wellFormed w -> wellFormed (stopCounting c w).
Proof.
  intros H. pose proof H as H0. wf_split H. unfold stopCounting.
  destruct (nth_error (closures w) c) as [cl|] eqn:Ec; [|exact H0].
  assert (Hc : closureOK cl).
  { eapply Forall_forall; [exact Hcl | eapply nth_error_In, Ec]. }
  repeat split; try assumption.
  apply Forall_update_nth; [exact Hc | exact Hcl].
Qed.

Lemma measureFrameRate_wellFormed (t : num) (w : World) :
  windowLength t -> wellFormed w -> wellFormed (measureFrameRate t w).
Proof.
  intros Ht H. pose proof H as H0. wf_split H. unfold measureFrameRate.
  destruct (negb _); [exact H0|]. cbv zeta.
  match goal with
  | |- wellFormed (setTimeout _ _ (countFrames ?c ?x)) =>
      change (wellFormed (countFrames c x)); apply countFrames_wellFormed
  end.
  unfold wellFormed. cbn. repeat split; try assumption.
  - apply Forall_app. split; [exact Hcl|]. constructor; [|constructor].
    split; [cbn; lia | exact Ht].
  - apply Forall_app. split; [exact Hwin|]. constructor; [exact Ht|constructor].
Qed.

Lemma nextMeasure_wellFormed (c : nat) (w : World) :
  wellFormed w -> wellFormed (nextMeasure c w).
Proof.
  intros H. pose proof H as H0. wf_split H. unfold nextMeasure.
  destruct (nth_error (closures w) c) as [cl|] eqn:Ec; [|exact H0].
  assert (Hc : closureOK cl).
  { eapply Forall_forall; [exact Hcl | eapply nth_error_In, Ec]. }
  destruct Hc as [Hk Ht]. cbv zeta.
  assert (Ht' : windowLength
                  (if (time cl <? n_ 2000)%js then (time cl * n_ 2)%js
                   else n_ 3000)).
  { destruct Ht as [-> | [-> | [-> | ->]]]; cbn; unfold windowLength; auto. }
  set (t' := if (time cl <? n_ 2000)%js then (time cl * n_ 2)%js else n_ 3000) in *.
  assert (G : wellFormed (set_closure c (mkClosure (count cl) (run cl) t') w)).
  { repeat split; try assumption.
    apply Forall_update_nth; [split; assumption | exact Hcl]. }
  cbn [this set_closure set_closures].
  destruct (Nat.ltb _ _) eqn:El.
  - apply measureFrameRate_wellFormed; assumption.
  - unfold wellFormed.
    cbn [this with_this set_closure set_closures closures windows frameRate
         set_finalFrameRate stepTime currentTime scrollDirection
         finalFrameRate frameRateValues].
    repeat split; try assumption.
    + apply Forall_update_nth; [split; assumption | exact Hcl].
    + intros _. apply Nat.ltb_ge in El. exact El.
Qed.

Lemma handleTabVisibilityChange_wellFormed (w : World) :
  wellFormed w -> wellFormed (handleTabVisibilityChange w).
Proof.
  intros H. unfold handleTabVisibilityChange.
  destruct (hidden w); [exact H|]. cbv zeta.
  destruct (strict_eq _ _); [|exact H].
  apply measureFrameRate_wellFormed; [left; reflexivity | exact H].
Qed.

Lemma runCallback_wellFormed (cb : Callback) (w : World) :
  wellFormed w -> wellFormed (runCallback cb w).
Proof.
  destruct cb; cbn [runCallback].
  - apply performSmoothScrolling_wellFormed.
  - apply countFrames_wellFormed.
  - apply stopCounting_wellFormed.
  - apply nextMeasure_wellFormed.
Qed.

Lemma dispatch_wellFormed (e : HostEvent) (w : World) :
  wellFormed w -> wellFormed (dispatch e w).
Proof.
  intros H. destruct e as [event| |k|h|a]; cbn [dispatch].
  - destruct (listening w); [apply handleWheelEvent_wellFormed|]; exact H.
  - apply (fold_callbacks_kept wellFormed runCallback_wellFormed). exact H.
  - destruct (nth_error (timerQueue w) k) as [[d cb]|]; [|exact H].
    apply runCallback_wellFormed. exact H.
  - cbv zeta. destruct (watching _); [|exact H].
    apply handleTabVisibilityChange_wellFormed. exact H.
  - destruct (observing w); [|exact H].
    destruct a; exact H.
Qed.

Lemma newSmoothScroll_wellFormed (options : Options) (mobile pageHidden : bool) :
  wellFormed (newSmoothScroll options mobile pageHidden).
Proof.
  assert (H0 : wellFormed (mkWorld (construct options) [] [] [] [] pageHidden
                             false false false [])).
  { unfold wellFormed. cbn.
    split; [constructor|]. split; [constructor|].
    split; [left; reflexivity|]. split; [left; reflexivity|].
    split; [left; reflexivity|]. split; [left; reflexivity|].
    intros E. discriminate E. }
  unfold newSmoothScroll, initialize. destruct (negb mobile); [|exact H0].
  cbv zeta. apply handleTabVisibilityChange_wellFormed in H0. exact H0.
Qed.

Lemma reachable_wellFormed (options : Options) (mobile pageHidden : bool)
  (w : World) :
  reachable (newSmoothScroll options mobile pageHidden) w -> wellFormed w.
Proof.
  induction 1 as [|w e Hr IH].
  - apply newSmoothScroll_wellFormed.
  - apply dispatch_wellFormed, IH.
Qed.

(** X5: in every order of events, each measurement window is 500, 1000, 2000
    or 3000ms long, at its start and after every change of [time], and every
    frame count is non-negative. *)
Theorem window_lengths_are_fixed
  (options : Options) (mobile pageHidden : bool) (es : list HostEvent) :
  let w := runEvents es (newSmoothScroll options mobile pageHidden) in
  Forall windowLength (windows w)
  /\ Forall (fun cl => windowLength (time cl) /\ (0 <= count cl)%Z) (closures w).
Proof.
  cbv zeta.
  destruct (reachable_wellFormed options mobile pageHidden _
              (runEvents_reachable _ es)) as (Hcl & Hwin & _).
  split; [exact Hwin|].
  eapply Forall_impl; [|exact Hcl]. intros cl [H1 H2]. auto.
Qed.

(** X6: in every reachable state [frameRate] is [null] or a non-negative
    integer, [stepTime] is [null], [Infinity] or a non-negative integer, and
    [currentTime] is [null], [Infinity] or a non-negative number: none is
    ever NaN or negative. *)
Theorem step_and_elapsed_time_are_sound
  (options : Options) (mobile pageHidden : bool) (es : list HostEvent) :
  let o := this (runEvents es (newSmoothScroll options mobile pageHidden)) in
  rateOK (frameRate o) /\ stepOK (stepTime o) /\ timeOK (currentTime o).
Proof.
  cbv zeta.
  destruct (reachable_wellFormed options mobile pageHidden _
              (runEvents_reachable _ es)) as (_ & _ & Hr & Hs & Ht & _).
  auto.
Qed.

(** X7: in every reachable state [scrollDirection] is [null], 1 or -1; it is
    never [undefined], so the test of line 143 never holds. *)
Theorem direction_is_never_undefined
  (options : Options) (mobile pageHidden : bool) (es : list HostEvent) :
  let o := this (runEvents es (newSmoothScroll options mobile pageHidden)) in
  directionOK (scrollDirection o)
  /\ strict_eq (scrollDirection o) VUndefined = false.
Proof.
  cbv zeta.
  destruct (reachable_wellFormed options mobile pageHidden _
              (runEvents_reachable _ es)) as (_ & _ & _ & _ & _ & Hd & _).
  split; [exact Hd|].
  destruct Hd as [-> | [-> | ->]]; reflexivity.
Qed.

(** X8: in every reachable state, a final rate that is not [null] comes with
    at least three retained samples. *)
Theorem final_rate_needs_three_samples
  (options : Options) (mobile pageHidden : bool) (es : list HostEvent) :
  let o := this (runEvents es (newSmoothScroll options mobile pageHidden)) in
  strict_eq (finalFrameRate o) VNull = false ->
  (3 <= List.length (frameRateValues o))%nat.
Proof.
  cbv zeta.
  destruct (reachable_wellFormed options mobile pageHidden _
              (runEvents_reachable _ es)) as (_ & _ & _ & _ & _ & _ & Hf).
  exact Hf.
Qed.

Lemma final_rate_needs_three_samples_witness :
  (3 <= List.length (frameRateValues (this (runEvents fullCalibration page))))%nat.
Proof.
  apply (final_rate_needs_three_samples no_options false false fullCalibration).
  vm_compute. reflexivity.
Defined.

Lemma performSmoothScrolling_effect (w : World) :
  let w' := performSmoothScrolling w in
  this w' = stepObject (this w)
  /\ frameQueue w'
     = frameQueue w
       ++ (if truthy (scrollActive (stepObject (this w)))
           then [PerformSmoothScrolling] else [])
  /\ scrolled w' = scrolled w ++ [scrollQuantityOf (set_scrollActive (VBool true) (this w))].
Proof.
  cbv zeta. unfold performSmoothScrolling, stepObject. cbv zeta.
  cbn [this with_this scrollBy set_scrollActive set_currentTime currentTime
       growingDuration scrollActive stepTime to_number].
  destruct (gt _ _); cbn; rewrite ?app_nil_r; auto.
Qed.

Lemma pendingSteps_request_count (c : nat) (w : World) :
  pendingSteps (requestAnimationFrame (CountFrames c) w) = pendingSteps w.
Proof.
  unfold pendingSteps, requestAnimationFrame. cbn [frameQueue set_frameQueue].
  rewrite filter_app. cbn. rewrite app_nil_r. reflexivity.
Qed.

Lemma countFrames_view (c : nat) (w : World) :
  gestureView (countFrames c w) = gestureView w.
Proof.
  unfold countFrames. destruct (negb _); [reflexivity|].
  destruct (nth_error (closures w) c) as [cl|]; [|reflexivity].
  cbv zeta. cbn [run]. destruct (run cl).
  - unfold gestureView. rewrite pendingSteps_request_count. reflexivity.
  - destruct (eqb _ _); reflexivity.
Qed.

Lemma stopCounting_view (c : nat) (w : World) :
  gestureView (stopCounting c w) = gestureView w.
Proof. unfold stopCounting. split_plain; reflexivity. Qed.

Lemma measureFrameRate_view (t : num) (w : World) :
  gestureView (measureFrameRate t w) = gestureView w.
Proof.
  unfold measureFrameRate. destruct (negb _); [reflexivity|]. cbv zeta.
  change (gestureView (setTimeout ?cb ?d ?x)) with (gestureView x).
  rewrite countFrames_view. reflexivity.
Qed.

Lemma nextMeasure_view (c : nat) (w : World) :
  gestureView (nextMeasure c w) = gestureView w.
Proof.
  unfold nextMeasure. destruct (nth_error (closures w) c); [|reflexivity].
  cbv zeta. destruct (Nat.ltb _ _); [|reflexivity].
  rewrite measureFrameRate_view. reflexivity.
Qed.

Lemma handleTabVisibilityChange_view (w : World) :
  gestureView (handleTabVisibilityChange w) = gestureView w.
Proof.
  unfold handleTabVisibilityChange. destruct (hidden w); [reflexivity|].
  cbv zeta. destruct (strict_eq _ _); [|reflexivity].
  rewrite measureFrameRate_view. reflexivity.
Qed.

Lemma estimator_callback_view (cb : Callback) (w : World) :
  isStep cb = false -> gestureView (runCallback cb w) = gestureView w.
Proof.
  destruct cb; try discriminate; intros _; cbn [runCallback].
  - apply countFrames_view.
  - apply stopCounting_view.
  - apply nextMeasure_view.
Qed.

Lemma dispatch_frame (w : World) :
  dispatch EvFrame w = runCallbacks (frameQueue w) (set_frameQueue [] w).
Proof. reflexivity. Qed.

Lemma stepObject_animator (o1 o2 : SmoothScroll) :
  animatorOf o1 = animatorOf o2 ->
  animatorOf (stepObject o1) = animatorOf (stepObject o2)
  /\ scrollQuantityOf (set_scrollActive (VBool true) o1)
     = scrollQuantityOf (set_scrollActive (VBool true) o2).
Proof.
  unfold animatorOf. intros H. injection H as Hs Hst Hc Ha Hd Hg.
  split.
  - unfold stepObject. cbv zeta.
    cbn [set_scrollActive set_currentTime currentTime growingDuration
         stepTime].
    rewrite Hst, Hc, Hg. destruct (gt _ _); cbn; rewrite ?Hs, ?Hst, ?Hd, ?Hg;
      reflexivity.
  - unfold scrollQuantityOf, calculateSpeedVariation.
    cbn [set_scrollActive settings currentTime growingDuration scrollDirection].
    rewrite Hs, Hc, Hd, Hg. reflexivity.
Qed.

Lemma gestureView_animator (w1 w2 : World) :
  gestureView w1 = gestureView w2 ->
  animatorOf (this w1) = animatorOf (this w2)
  /\ pendingSteps w1 = pendingSteps w2 /\ scrolled w1 = scrolled w2.
Proof.
  intros H.
  pose proof (f_equal (fun x => fst (fst x)) H) as H1.
  pose proof (f_equal (fun x => snd (fst x)) H) as H2.
  pose proof (f_equal snd H) as H3. auto.
Qed.

(** A frame in which no step is pending. *)
Lemma runCallbacks_no_step (cbs : list Callback) :
  filter isStep cbs = [] ->
  forall w, gestureView (runCallbacks cbs w) = gestureView w.
Proof.
  induction cbs as [|cb cbs IH]; intros H w; [reflexivity|].
  cbn in H. destruct (isStep cb) eqn:E; [discriminate|].
  cbn [runCallbacks fold_left]. fold (runCallbacks cbs (runCallback cb w)).
  rewrite IH by exact H. apply estimator_callback_view, E.
Qed.

(** A frame in which exactly one step is pending. *)
Lemma runCallbacks_one_step (cbs : list Callback) :
  List.length (filter isStep cbs) = 1%nat ->
  forall w,
    let w' := runCallbacks cbs w in
    animatorOf (this w') = animatorOf (stepObject (this w))
    /\ pendingSteps w'
       = (pendingSteps w
          + if truthy (scrollActive (stepObject (this w))) then 1 else 0)%nat
    /\ scrolled w'
       = scrolled w ++ [scrollQuantityOf (set_scrollActive (VBool true) (this w))].
Proof.
  induction cbs as [|cb cbs IH]; intros H w; [discriminate|].
  cbv zeta. cbn [runCallbacks fold_left].
  fold (runCallbacks cbs (runCallback cb w)).
  cbn in H. destruct (isStep cb) eqn:E.
  - destruct cb; try discriminate. cbn [runCallback].
    cbn in H. injection H as H.
    apply length_zero_iff_nil in H.
    destruct (gestureView_animator _ _
                (runCallbacks_no_step cbs H (performSmoothScrolling w)))
      as (Ea & Ep & Es).
    destruct (performSmoothScrolling_effect w) as (Et & Eq & Esc).
    rewrite Ea, Ep, Es, Et, Esc. split; [reflexivity|]. split; [|reflexivity].
    unfold pendingSteps. rewrite Eq, filter_app, length_app.
    destruct (truthy _); reflexivity.
  - destruct (gestureView_animator _ _ (estimator_callback_view cb w E))
      as (Ea & Ep & Es).
    destruct (IH H (runCallback cb w)) as (Ia & Ip & Is).
    destruct (stepObject_animator _ _ Ea) as (Sa & Sq).
    rewrite Ia, Ip, Is, Ep, Es, Sq. split; [exact Sa|].
    assert (Et : scrollActive (stepObject (this (runCallback cb w)))
                 = scrollActive (stepObject (this w))).
    { unfold animatorOf in Sa. injection Sa as _ _ _ Hact _ _. exact Hact. }
    rewrite Et. auto.
Qed.

Lemma gt_Fin (a b : Q) : gt (Fin a) (Fin b) = true <-> (b < a)%Q.
Proof.
  cbn [gt]. destruct (a ?= b)%Q eqn:E; split; intros H;
    try discriminate; try reflexivity.
  - apply Qeq_alt in E. rewrite E in H. exfalso. eapply Qlt_irrefl, H.
  - apply Qlt_alt in E. exfalso. eapply Qlt_irrefl, Qlt_trans; eassumption.
  - apply Qgt_alt in E. exact E.
Qed.

Lemma frame_with_one_step (w : World) :
  pendingSteps w = 1%nat ->
  let w' := dispatch EvFrame w in
  animatorOf (this w') = animatorOf (stepObject (this w))
  /\ pendingSteps w'
     = (if truthy (scrollActive (stepObject (this w))) then 1 else 0)%nat
  /\ scrolled w'
     = scrolled w ++ [scrollQuantityOf (set_scrollActive (VBool true) (this w))].
Proof.
  intros H. cbv zeta. rewrite dispatch_frame.
  destruct (runCallbacks_one_step (frameQueue w) H (set_frameQueue [] w))
    as (Ha & Hp & Hs).
  auto.
Qed.

(** X10: with one step pending and a finite, positive step time, the gesture
    ends: if [n + 1] steps exceed the remaining duration, then after at most
    [n + 1] frames the active flag is false, no step is pending any more, and
    exactly one scroll was applied per frame. *)
Theorem gesture_ends (n : nat) :
  forall (w : World) (c g s : Q),
    pendingSteps w = 1%nat ->
    to_number (currentTime (this w)) = Fin c ->
    to_number (growingDuration (this w)) = Fin g ->
    to_number (stepTime (this w)) = Fin s ->
    (0 < s)%Q ->
    (g < c + (inject_Z (Z.of_nat n) + 1) * s)%Q ->
    exists m, (1 <= m <= S n)%nat
      /\ let w' := runEvents (repeat EvFrame m) w in
         scrollActive (this w') = VBool false
         /\ pendingSteps w' = 0%nat
         /\ List.length (scrolled w') = (List.length (scrolled w) + m)%nat.
Proof.
  induction n as [|n IH]; intros w c g s Hp Hc Hg Hs Hs0 Hn.
  - exists 1%nat. split; [lia|]. cbv zeta. cbn [repeat runEvents fold_left].
    destruct (frame_with_one_step w Hp) as (Ha & Hq & Hl).
    remember (dispatch EvFrame w) as w1 eqn:Ew1. cbv zeta in Ha, Hq, Hl.
    unfold animatorOf in Ha. injection Ha as _ _ _ Hact _ _.
    assert (E : scrollActive (stepObject (this w)) = VBool false).
    { unfold stepObject. cbv zeta.
      cbn [set_scrollActive set_currentTime currentTime growingDuration stepTime
           to_number].
      rewrite Hc, Hg, Hs. cbn [add].
      assert (G : gt (Fin (c + s)) (Fin g) = true).
      { apply gt_Fin. change (inject_Z (Z.of_nat 0)) with 0%Q in Hn. lra. }
      rewrite G. reflexivity. }
    rewrite Hact, Hq, Hl, E, length_app. cbn. auto.
  - destruct (frame_with_one_step w Hp) as (Ha & Hq & Hl).
    remember (dispatch EvFrame w) as w1 eqn:Ew1.
    assert (Eo : stepObject (this w)
                 = if gt (Fin (c + s)) (Fin g)
                   then set_scrollActive (VBool false)
                          (set_currentTime (VNum (Fin (c + s)))
                             (set_scrollActive (VBool true) (this w)))
                   else set_currentTime (VNum (Fin (c + s)))
                          (set_scrollActive (VBool true) (this w))).
    { unfold stepObject. cbv zeta.
      cbn [set_scrollActive set_currentTime currentTime growingDuration stepTime
           to_number].
      rewrite Hc, Hg, Hs. reflexivity. }
    rewrite Eo in Ha, Hq. unfold animatorOf in Ha.
    destruct (gt (Fin (c + s)) (Fin g)) eqn:G.
    + exists 1%nat. split; [lia|]. cbv zeta. cbn [repeat runEvents fold_left].
      rewrite <- Ew1. cbn in Ha, Hq. injection Ha as _ _ _ Hact _ _.
      rewrite Hact, Hq, Hl, length_app. cbn. auto.
    + cbn in Ha, Hq. injection Ha as _ Hst Hct Hact _ Hgd.
      destruct (IH w1 (c + s)%Q g s) as (m & Hm & H1 & H2 & H3).
      * exact Hq.
      * rewrite Hct. reflexivity.
      * rewrite Hgd. exact Hg.
      * rewrite Hst. exact Hs.
      * exact Hs0.
      * rewrite Nat2Z.inj_succ, <- Z.add_1_r, inject_Z_plus in Hn.
        change (inject_Z 1) with 1%Q in Hn. lra.
      * exists (S m). split; [lia|]. cbv zeta.
        change (repeat EvFrame (S m)) with ([EvFrame] ++ repeat EvFrame m).
        rewrite runEvents_app.
        replace (runEvents [EvFrame] w) with w1 by (subst w1; reflexivity).
        rewrite H1, H2, H3, Hl, length_app. cbn. repeat split; lia.
Qed.

Lemma runCallback_pending (cb : Callback) (rest : list Callback) (w : World) :
  stepPendingWhenActive (cb :: rest) w ->
  stepPendingWhenActive rest (runCallback cb w).
Proof.
  unfold stepPendingWhenActive. intros H. destruct (isStep cb) eqn:E.
  - destruct cb; try discriminate. cbn [runCallback].
    destruct (performSmoothScrolling_effect w) as (Et & Eq & _).
    rewrite Et. intros Ha. unfold pendingSteps.
    rewrite Eq, Ha, filter_app, length_app. cbn. lia.
  - destruct (gestureView_animator _ _ (estimator_callback_view cb w E))
      as (Ea & Ep & _).
    unfold animatorOf in Ea. injection Ea as _ _ _ Hact _ _.
    rewrite Hact, Ep. cbn [filter] in H. rewrite E in H. exact H.
Qed.

Lemma runCallbacks_pending (cbs : list Callback) :
  forall w, stepPendingWhenActive cbs w ->
            stepPendingWhenActive [] (runCallbacks cbs w).
Proof.
  induction cbs as [|cb cbs IH]; intros w H; [exact H|].
  cbn [runCallbacks fold_left]. fold (runCallbacks cbs (runCallback cb w)).
  apply IH, runCallback_pending, H.
Qed.

Lemma wheelUpdate_scrollActive (event : WheelEvent) (o : SmoothScroll) :
  scrollActive (wheelUpdate event o) = scrollActive o.
Proof.
  unfold wheelUpdate.
  repeat match goal with
         | |- context [if ?c then _ else _] => destruct c
         end; reflexivity.
Qed.

Lemma dispatch_pending (e : HostEvent) (w : World) :
  stepPendingWhenActive [] w -> stepPendingWhenActive [] (dispatch e w).
Proof.
  intros H. destruct e as [event| |k|h|a].
  - cbn [dispatch]. destruct (listening w); [|exact H].
    unfold stepPendingWhenActive, handleWheelEvent in *. cbv zeta.
    cbn [this with_this]. rewrite wheelUpdate_scrollActive.
    destruct (truthy (scrollActive (this w))) eqn:Ea; cbn [negb].
    + cbn [this with_this]. rewrite wheelUpdate_scrollActive, Ea. exact H.
    + cbn [this requestAnimationFrame set_frameQueue with_this].
      rewrite wheelUpdate_scrollActive, Ea. intros E. discriminate E.
  - rewrite dispatch_frame. apply runCallbacks_pending.
    unfold stepPendingWhenActive, pendingSteps in *.
    cbn [this frameQueue set_frameQueue filter List.length] in *.
    intros Ha. specialize (H Ha). lia.
  - cbn [dispatch]. destruct (nth_error (timerQueue w) k) as [[d cb]|]; [|exact H].
    apply (runCallback_pending cb []).
    unfold stepPendingWhenActive, pendingSteps in *.
    cbn [this frameQueue set_timerQueue] in *.
    intros Ha. specialize (H Ha). cbn [filter List.length] in *.
    destruct (isStep cb); cbn [List.length]; lia.
  - cbn [dispatch]. cbv zeta. destruct (watching _); [|exact H].
    destruct (gestureView_animator _ _
                (handleTabVisibilityChange_view (set_hidden h w)))
      as (Ea & Ep & _).
    unfold animatorOf in Ea. injection Ea as _ _ _ Hact _ _.
    unfold stepPendingWhenActive. rewrite Hact, Ep. exact H.
  - cbn [dispatch]. destruct (observing w); [|exact H].
    destruct a; exact H.
Qed.

Lemma newSmoothScroll_animator (options : Options) (mobile pageHidden : bool) :
  animatorOf (this (newSmoothScroll options mobile pageHidden))
  = animatorOf (construct options).
Proof.
  unfold newSmoothScroll, initialize. destruct (negb mobile); [|reflexivity].
  exact (handleTabVisibilityChange_animator
           (mkWorld (construct options) [] [] [] [] pageHidden false false
              false [])).
Qed.

(** X9: in every reachable state, an active gesture has a step waiting in the
    frame queue: the flag is never left on without the loop running. *)
Theorem active_gesture_has_step_pending
  (options : Options) (mobile pageHidden : bool) (es : list HostEvent) :
  let w := runEvents es (newSmoothScroll options mobile pageHidden) in
  truthy (scrollActive (this w)) = true -> (1 <= pendingSteps w)%nat.
Proof.
  cbv zeta.
  assert (H : stepPendingWhenActive []
                (runEvents es (newSmoothScroll options mobile pageHidden))).
  { induction es as [|e es IH] using rev_ind.
    - unfold stepPendingWhenActive.
      pose proof (newSmoothScroll_animator options mobile pageHidden) as Ea.
      unfold animatorOf in Ea. injection Ea as _ _ _ Hact _ _.
      cbn [runEvents fold_left]. rewrite Hact. intros E. discriminate E.
    - rewrite runEvents_app. cbn. apply dispatch_pending, IH. }
  intros Ha. specialize (H Ha). cbn in H. lia.
Qed.

(** X11: every wheel event that arrives before a step has run requests a step
    of its own, since the active flag is only set by the step: after [k] such
    events [k] more steps are pending and the flag is as it was. *)
Theorem idle_wheel_events_each_schedule_a_step (events : list WheelEvent) :
  forall w, listening w = true ->
    truthy (scrollActive (this w)) = false ->
    let w' := runEvents (map EvWheel events) w in
    pendingSteps w' = (pendingSteps w + List.length events)%nat
    /\ scrollActive (this w') = scrollActive (this w).
Proof.
  induction events as [|ev events IH]; intros w Hl Ha; cbv zeta.
  - cbn. split; [lia | reflexivity].
  - change (runEvents (map EvWheel (ev :: events)) w)
      with (runEvents (map EvWheel events) (dispatch (EvWheel ev) w)).
    assert (E : dispatch (EvWheel ev) w
                = requestAnimationFrame PerformSmoothScrolling
                    (with_this (wheelUpdate ev) w)).
    { cbn [dispatch]. rewrite Hl. unfold handleWheelEvent. cbv zeta.
      cbn [this with_this]. rewrite wheelUpdate_scrollActive, Ha. reflexivity. }
    rewrite E.
    destruct (IH (requestAnimationFrame PerformSmoothScrolling
                    (with_this (wheelUpdate ev) w))) as (H1 & H2).
    + exact Hl.
    + cbn [this requestAnimationFrame set_frameQueue with_this].
      rewrite wheelUpdate_scrollActive. exact Ha.
    + rewrite H1, H2. split.
      * unfold pendingSteps. cbn [frameQueue requestAnimationFrame set_frameQueue
                                   with_this].
        rewrite filter_app, length_app. cbn. lia.
      * cbn [this requestAnimationFrame set_frameQueue with_this].
        apply wheelUpdate_scrollActive.
Qed.

Lemma Forall_remove_nth {A : Type} (P : A -> Prop) (k : nat) (l : list A) :
  Forall P l -> Forall P (remove_nth k l).
Proof.
  intros H. revert k. induction H as [|x l Hx H IH]; intros [|k]; cbn; auto.
Qed.

Lemma countFrames_timerQueue (c : nat) (w : World) :
  timerQueue (countFrames c w) = timerQueue w.
Proof. unfold countFrames. split_plain; reflexivity. Qed.

Lemma measureFrameRate_timers (t : num) (w : World) :
  Forall (fun t => isStep (snd t) = false) (timerQueue w) ->
  Forall (fun t => isStep (snd t) = false) (timerQueue (measureFrameRate t w)).
Proof.
  intros H. unfold measureFrameRate. destruct (negb _); [exact H|]. cbv zeta.
  unfold setTimeout at 1. cbn [timerQueue set_timerQueue].
  rewrite countFrames_timerQueue. cbn [timerQueue setTimeout set_timerQueue].
  repeat (apply Forall_app; split); try exact H; repeat constructor.
Qed.

Lemma estimator_callback_timers (cb : Callback) (w : World) :
  isStep cb = false ->
  Forall (fun t => isStep (snd t) = false) (timerQueue w) ->
  Forall (fun t => isStep (snd t) = false) (timerQueue (runCallback cb w)).
Proof.
  intros E H. destruct cb as [|c|c|c]; try discriminate; cbn [runCallback].
  - rewrite countFrames_timerQueue. exact H.
  - unfold stopCounting. destruct (nth_error _ _); exact H.
  - unfold nextMeasure. destruct (nth_error _ _); [|exact H]. cbv zeta.
    destruct (Nat.ltb _ _); [|exact H].
    apply measureFrameRate_timers. exact H.
Qed.

Lemma runCallbacks_quiet (cbs : list Callback) :
  filter isStep cbs = [] ->
  forall w, Forall (fun t => isStep (snd t) = false) (timerQueue w) ->
            Forall (fun t => isStep (snd t) = false)
              (timerQueue (runCallbacks cbs w)).
Proof.
  induction cbs as [|cb cbs IH]; intros H w Hw; [exact Hw|].
  cbn in H. destruct (isStep cb) eqn:E; [discriminate|].
  cbn [runCallbacks fold_left]. fold (runCallbacks cbs (runCallback cb w)).
  apply IH; [exact H|]. apply estimator_callback_timers; assumption.
Qed.

Lemma dispatch_quiet (e : HostEvent) (w : World) :
  isWheel e = false -> quiet w ->
  quiet (dispatch e w) /\ gestureView (dispatch e w) = gestureView w.
Proof.
  intros He [Hp Ht]. destruct e as [event| |k|h|a]; try discriminate.
  - rewrite dispatch_frame.
    assert (Hf : filter isStep (frameQueue w) = [])
      by (apply length_zero_iff_nil; exact Hp).
    pose proof (runCallbacks_no_step (frameQueue w) Hf (set_frameQueue [] w)) as Hv.
    assert (Hv0 : gestureView (set_frameQueue [] w) = gestureView w).
    { unfold gestureView, pendingSteps. cbn [this frameQueue set_frameQueue scrolled filter List.length].
      fold (pendingSteps w). rewrite Hp. reflexivity. }
    rewrite Hv0 in Hv. split; [|exact Hv]. split.
    + destruct (gestureView_animator _ _ Hv) as (_ & E & _). rewrite E. exact Hp.
    + apply runCallbacks_quiet; [exact Hf | exact Ht].
  - cbn [dispatch]. destruct (nth_error (timerQueue w) k) as [[d cb]|] eqn:Ek;
      [|split; [split; assumption | reflexivity]].
    assert (Hcb : isStep cb = false).
    { eapply Forall_forall in Ht; [|eapply nth_error_In, Ek]. exact Ht. }
    pose proof (estimator_callback_view cb
                  (set_timerQueue (remove_nth k (timerQueue w)) w) Hcb) as Hv.
    change (gestureView (set_timerQueue (remove_nth k (timerQueue w)) w))
      with (gestureView w) in Hv.
    split; [|exact Hv]. split.
    + destruct (gestureView_animator _ _ Hv) as (_ & E & _). rewrite E. exact Hp.
    + apply estimator_callback_timers; [exact Hcb|].
      cbn [timerQueue set_timerQueue]. apply Forall_remove_nth, Ht.
  - cbn [dispatch]. cbv zeta.
    destruct (watching (set_hidden h w));
      [|split; [split; assumption | reflexivity]].
    pose proof (handleTabVisibilityChange_view (set_hidden h w)) as Hv.
    change (gestureView (set_hidden h w)) with (gestureView w) in Hv.
    split; [|exact Hv]. split.
    + destruct (gestureView_animator _ _ Hv) as (_ & E & _). rewrite E. exact Hp.
    + unfold handleTabVisibilityChange. destruct (hidden _); [exact Ht|].
      cbv zeta. destruct (strict_eq _ _); [|exact Ht].
      apply measureFrameRate_timers. exact Ht.
  - cbn [dispatch]. destruct (observing w);
      [|split; [split; assumption | reflexivity]].
    destruct a; (split; [split; assumption | reflexivity]).
Qed.

(** X12: when no step is pending, in the frame queue or behind a timeout, no
    sequence of frames, timeouts, visibility changes and button changes
    scrolls the page or changes a field of the animator. *)
Theorem no_scroll_without_wheel (es : list HostEvent) :
  forallb (fun e => negb (isWheel e)) es = true ->
  forall w, quiet w ->
    let w' := runEvents es w in
    scrolled w' = scrolled w /\ animatorOf (this w') = animatorOf (this w)
    /\ quiet w'.
Proof.
  induction es as [|e es IH]; intros Hes w Hq; cbv zeta.
  - cbn. auto.
  - cbn in Hes. apply andb_prop in Hes as [He Hes].
    apply negb_true_iff in He.
    change (runEvents (e :: es) w) with (runEvents es (dispatch e w)).
    destruct (dispatch_quiet e w He Hq) as (Hq' & Hv).
    destruct (gestureView_animator _ _ Hv) as (Ea & _ & Es).
    destruct (IH Hes (dispatch e w) Hq') as (H1 & H2 & H3).
    rewrite H1, H2, Es, Ea. auto.
Qed.

Section SpeedRange.

Local Open Scope Q_scope.

Lemma Qsquare_nonneg (x : Q) : 0 <= x * x.
Proof.
  destruct (Qlt_le_dec x 0) as [H|H].
  - assert (E : x * x == (- x) * (- x)) by ring. rewrite E.
    apply Qmult_le_0_compat; lra.
  - apply Qmult_le_0_compat; assumption.
Qed.

(** The ratio of the derivatives stays above -0.70715. *)
Lemma ratio_lower_bound (t : Q) : - (14143 # 20000) <= dPyQ t / dPxQ t.
Proof.
  apply Qle_shift_div_l; [apply dPxQ_pos|].
  pose proof (Qsquare_nonneg ((82429 # 20000) * t - (34143 # 20000))) as Hs.
  assert (E : (82429 # 20000) * (dPyQ t + (14143 # 20000) * dPxQ t)
              == 3 * (((82429 # 20000) * t - (34143 # 20000))
                      * ((82429 # 20000) * t - (34143 # 20000))
                      + (48898 # 400000000))).
  { unfold dPyQ, dPxQ. ring. }
  revert Hs E. generalize (dPyQ t) (dPxQ t).
  generalize (((82429 # 20000) * t - (34143 # 20000))
              * ((82429 # 20000) * t - (34143 # 20000))).
  intros S y x Hs E. lra.
Qed.

Lemma speedQ_upper_bound (t : Q) : speedQ t <= 7071 # 10000.
Proof.
  unfold speedQ.
  assert (Hf : (-7071 <= Qfloor (dPyQ t / dPxQ t * 10000 + (1 # 2)))%Z).
  { change (-7071)%Z with (Qfloor (- (14143 # 20000) * 10000 + (1 # 2))).
    apply Qfloor_resp_le. pose proof (ratio_lower_bound t) as H. revert H.
    generalize (dPyQ t / dPxQ t). intros r H. lra. }
  rewrite Zle_Qle in Hf. revert Hf.
  generalize (inject_Z (Qfloor (dPyQ t / dPxQ t * 10000 + (1 # 2)))).
  intros z Hz. change (inject_Z (-7071)) with (- (7071 # 1)) in Hz.
  unfold Qdiv. change (/ 10000) with (1 # 10000). lra.
Qed.

Lemma speedQ_nonpos_past_end (t : Q) : 1 <= t -> speedQ t <= 0.
Proof.
  intros H. unfold speedQ.
  assert (Hr : 0 <= dPyQ t / dPxQ t).
  { apply Qle_shift_div_l; [apply dPxQ_pos|]. unfold dPyQ.
    assert (0 <= t * (t - 1)) by (apply Qmult_le_0_compat; lra).
    assert (E : - (6) * (t * (1 - t)) == 6 * (t * (t - 1))) by ring.
    rewrite E. lra. }
  assert (Hf : (0 <= Qfloor (dPyQ t / dPxQ t * 10000 + (1 # 2)))%Z).
  { apply round_nonneg. revert Hr. generalize (dPyQ t / dPxQ t). intros r Hr. lra. }
  rewrite Zle_Qle in Hf. revert Hf.
  generalize (inject_Z (Qfloor (dPyQ t / dPxQ t * 10000 + (1 # 2)))).
  intros z Hz. change (inject_Z 0) with 0 in Hz.
  unfold Qdiv. change (/ 10000) with (1 # 10000). lra.
Qed.

Lemma ratio_upper_bound (t : Q) : dPyQ t / dPxQ t < 14143 # 20000.
Proof.
  apply Qlt_shift_div_r; [apply dPxQ_pos|].
  pose proof (Qsquare_nonneg ((2429 # 20000) * t + (5857 # 20000))) as Hs.
  assert (E : (2429 # 20000) * ((14143 # 20000) * dPxQ t - dPyQ t)
              == 3 * (((2429 # 20000) * t + (5857 # 20000))
                      * ((2429 # 20000) * t + (5857 # 20000))
                      + (48898 # 400000000))).
  { unfold dPyQ, dPxQ. ring. }
  revert Hs E. generalize (dPyQ t) (dPxQ t).
  generalize (((2429 # 20000) * t + (5857 # 20000))
              * ((2429 # 20000) * t + (5857 # 20000))).
  intros S y x Hs E. lra.
Qed.

Lemma speedQ_lower_bound (t : Q) : - (7071 # 10000) <= speedQ t.
Proof.
  unfold speedQ.
  assert (Hf : (Qfloor (dPyQ t / dPxQ t * 10000 + (1 # 2)) <= 7071)%Z).
  { assert (Hlt : (Qfloor (dPyQ t / dPxQ t * 10000 + (1 # 2)) < 7072)%Z).
    { rewrite Zlt_Qlt. eapply Qle_lt_trans; [apply Qfloor_le|].
      pose proof (ratio_upper_bound t) as H. revert H.
      generalize (dPyQ t / dPxQ t). intros r H.
      change (inject_Z 7072) with (7072 # 1). lra. }
    lia. }
  rewrite Zle_Qle in Hf. revert Hf.
  generalize (inject_Z (Qfloor (dPyQ t / dPxQ t * 10000 + (1 # 2)))).
  intros z Hz. change (inject_Z 7071) with (7071 # 1) in Hz.
  unfold Qdiv. change (/ 10000) with (1 # 10000). lra.
Qed.

(** X13: for every finite [t] the speed multiplier is finite and lies in
    [-0.7071, 0.7071]; it is not negative for [0 <= t <= 1] and not positive
    for [t >= 1]. *)
Theorem speed_range (t : Q) :
  exists v, speedAt (Fin t) = Fin v
    /\ - (7071 # 10000) <= v <= 7071 # 10000
    /\ (0 <= t -> t <= 1 -> 0 <= v)
    /\ (1 <= t -> v <= 0).
Proof.
  destruct (speedAt_Fin t) as (v & E & Hv). exists v.
  split; [exact E|]. rewrite Hv.
  split; [split; [apply speedQ_lower_bound | apply speedQ_upper_bound]|].
  split.
  - intros H0 H1. apply speedQ_nonneg; assumption.
  - apply speedQ_nonpos_past_end.
Qed.

Lemma speed_range_witness :
  exists v, speedAt (Fin (4142 # 10000)) = Fin v /\ 0 <= v <= 7071 # 10000.
Proof.
  destruct (speed_range (4142 # 10000)) as (v & E & [_ Hu] & Hp & _).
  exists v. split; [exact E|]. split; [|exact Hu].
  apply Hp; vm_compute; discriminate.
Defined.

Lemma speed_peak_reached :
  exists v, speedAt (Fin (4142 # 10000)) = Fin v /\ v == 7071 # 10000.
Proof. eexists. split; [vm_compute; reflexivity | reflexivity]. Qed.

(** The sign of a step, on either side of the end of the curve. *)
Lemma scrollQuantity_side (o : SmoothScroll) (c g m d : Q) :
  currentTime o = VNum (Fin c) -> growingDuration o = VNum (Fin g) ->
  scrollSpeedMultiplier (settings o) = VNum (Fin m) ->
  scrollDirection o = VNum (Fin d) ->
  ~ g == 0 -> 0 <= m -> d = 1 \/ d = - (1) ->
  exists q, scrollQuantityOf o = Fin q
    /\ (0 <= c / g -> c / g <= 1 -> 0 <= q * d)
    /\ (1 <= c / g -> q * d <= 0).
Proof.
  intros Hc Hg Hm Hd Hg0 Hm0 Hd1.
  unfold scrollQuantityOf, calculateSpeedVariation.
  rewrite Hc, Hg, Hm, Hd. cbn [to_number div].
  assert (Hnz : Qeq_bool g 0 = false).
  { destruct (Qeq_bool g 0) eqn:E; [|reflexivity].
    apply Qeq_bool_eq in E. contradiction. }
  rewrite Hnz.
  destruct (speedAt_Fin (c / g)) as (v & -> & Hv).
  assert (Hin : 0 <= c / g -> c / g <= 1 -> 0 <= v)
    by (intros; rewrite Hv; apply speedQ_nonneg; assumption).
  assert (Hout : 1 <= c / g -> v <= 0)
    by (intros; rewrite Hv; apply speedQ_nonpos_past_end; assumption).
  clear Hv.
  cbn [mul n_ of_Z round].
  change (Qeq_bool (inject_Z 10) 0) with false. cbv iota.
  exists (inject_Z (Qfloor (v * m * d * inject_Z 10 + (1 # 2))) / inject_Z 10).
  split; [reflexivity|].
  assert (Eq : inject_Z (Qfloor (v * m * d * inject_Z 10 + (1 # 2))) / inject_Z 10
               == inject_Z (Qfloor (v * m * d * 10 + (1 # 2))) * (1 # 10))
    by reflexivity.
  rewrite Eq. clear Eq.
  pose proof (round_nonneg (v * m * d * 10)) as Hr.
  pose proof (round_nonpos (v * m * d * 10)) as Hs.
  rewrite Zle_Qle in Hr, Hs. change (inject_Z 0) with 0 in Hr, Hs.
  revert Hr Hs.
  generalize (inject_Z (Qfloor (v * m * d * 10 + (1 # 2)))). intros z Hr Hs.
  split.
  - intros H0 H1. specialize (Hin H0 H1).
    assert (Hvm0 : 0 <= v * m) by (apply Qmult_le_0_compat; assumption).
    destruct Hd1; subst d.
    + assert (0 <= z) by (apply Hr; lra). lra.
    + assert (z <= 0) by (apply Hs; lra). lra.
  - intros H1. specialize (Hout H1).
    assert (Hvm0 : 0 <= (- v) * m) by (apply Qmult_le_0_compat; lra).
    destruct Hd1; subst d.
    + assert (z <= 0) by (apply Hs; lra). lra.
    + assert (0 <= z) by (apply Hr; lra). lra.
Qed.

(** X14: which side of the end of the curve the elapsed time is on decides
    which way a step can scroll.  While
    [0 <= currentTime / growingDuration <= 1] a step never scrolls against
    the stored direction; once the ratio has reached 1 it never scrolls
    along it. *)
Theorem step_side_follows_elapsed_ratio (o : SmoothScroll) (c g m d : Q) :
  currentTime o = VNum (Fin c) -> growingDuration o = VNum (Fin g) ->
  scrollSpeedMultiplier (settings o) = VNum (Fin m) ->
  scrollDirection o = VNum (Fin d) ->
  ~ g == 0 -> 0 <= m -> d = 1 \/ d = - (1) ->
  (0 <= c / g -> c / g <= 1 ->
   againstDirection o (scrollQuantityOf o) = false)
  /\ (1 <= c / g -> alongDirection o (scrollQuantityOf o) = false).
Proof.
  intros Hc Hg Hm Hd Hg0 Hm0 Hd1.
  destruct (scrollQuantity_side o c g m d Hc Hg Hm Hd Hg0 Hm0 Hd1)
    as (q & Eq & Hin & Hout).
  unfold againstDirection, alongDirection, lt.
  rewrite Eq, Hd. cbn [to_number mul].
  change (n_ 0) with (Fin 0).
  split.
  - intros H0 H1. specialize (Hin H0 H1).
    destruct (gt (Fin 0) (Fin (q * d))) eqn:E; [|reflexivity].
    apply gt_Fin in E. lra.
  - intros H1. specialize (Hout H1).
    destruct (gt (Fin (q * d)) (Fin 0)) eqn:E; [|reflexivity].
    apply gt_Fin in E. lra.
Qed.

Lemma step_side_follows_elapsed_ratio_witness :
  againstDirection midGesture (scrollQuantityOf midGesture) = false
  /\ alongDirection turnedBackLate (scrollQuantityOf turnedBackLate) = false.
Proof.
  assert (Hg1 : ~ 847 # 1 == 0) by (vm_compute; discriminate).
  assert (Hg2 : ~ 770 # 1 == 0) by (vm_compute; discriminate).
  assert (Hm : 0 <= 12 # 1) by (vm_compute; discriminate).
  split.
  - apply (proj1 (step_side_follows_elapsed_ratio midGesture
                    (170 # 1) (847 # 1) (12 # 1) 1
                    eq_refl eq_refl eq_refl eq_refl Hg1 Hm
                    (or_introl eq_refl)));
      vm_compute; discriminate.
  - apply (proj2 (step_side_follows_elapsed_ratio turnedBackLate
                    (799 # 1) (770 # 1) (12 # 1) (- (1))
                    eq_refl eq_refl eq_refl eq_refl Hg2 Hm
                    (or_intror eq_refl))).
    vm_compute. discriminate.
Defined.

(** The step of the late turn scrolls by 0.4, the gesture pointing upward. *)
Example step_after_late_turn :
  scrollQuantityOf turnedBackLate = Fin (4 # 10).
Proof. vm_compute. reflexivity. Qed.

End SpeedRange.

Lemma add_NaN_r (a : num) : (a + NaN)%js = NaN.
Proof. destruct a; reflexivity. Qed.

Lemma mul_NaN_r (a : num) : (a * NaN)%js = NaN.
Proof. destruct a; reflexivity. Qed.

(** X15: with fewer than four control points [calculateBezierDerivative]
    returns NaN for every [t]: the missing entry reads [undefined]. *)
Theorem bezier_needs_four_points (t : num) (p : list num) :
  (List.length p < 4)%nat -> calculateBezierDerivative t p = NaN.
Proof.
  intros H. unfold calculateBezierDerivative, idx.
  rewrite (nth_overflow p NaN (n := 3)) by lia.
  cbn [sub]. rewrite mul_NaN_r. apply add_NaN_r.
Qed.

Lemma bezier_needs_four_points_witness :
  calculateBezierDerivative (n_ 0) [n_ 0; n_ 1; n_ 1] = NaN.
Proof. apply bezier_needs_four_points. cbn. lia. Defined.

(** X16: with [enableLimitDuration] off, a tick in the stored direction on an
    active gesture never shortens an integer duration (factor at least 1),
    whatever [limitDuration] is, and lengthens it as soon as
    [(factor - 1) * duration >= 1/2]. *)
Theorem growth_without_limit (event : WheelEvent) (o : SmoothScroll)
  (g : Z) (f : Q) :
  scrollDirection o = VNum (directionOf event) ->
  truthy (scrollActive o) = true ->
  truthy (enableLimitDuration (settings o)) = false ->
  growingDuration o = VNum (of_Z g) ->
  durationIncreaseFactor (settings o) = VNum (Fin f) ->
  (0 <= g)%Z -> (1 <= f)%Q ->
  exists g', growingDuration (wheelUpdate event o) = VNum (of_Z g')
    /\ (g <= g')%Z
    /\ (((1 # 2) <= (f - 1) * inject_Z g)%Q -> (g < g')%Z).
Proof.
  intros Hd Ha He Hg Hf Hg0 Hf1.
  assert (Hr : eqb (directionOf event) (directionOf event) = true).
  { destruct (directionOf_cases event) as [-> | ->]; reflexivity. }
  unfold wheelUpdate. rewrite Hd. cbn [strict_eq]. rewrite Hd, Hr, Ha, He.
  cbn [growingDuration set_growingDuration set_scrollDirection set_stepTime].
  rewrite Hg, Hf. cbn [to_number mul round of_Z].
  eexists. split; [reflexivity|].
  rewrite Zle_Qle in Hg0. change (inject_Z 0) with 0%Q in Hg0.
  assert (Hm : (inject_Z g * 1 <= inject_Z g * f)%Q).
  { rewrite (Qmult_comm _ 1), (Qmult_comm _ f).
    apply Qmult_le_compat_r; assumption. }
  split.
  - replace g with (Qfloor (inject_Z g)) at 1 by apply Qfloor_Z.
    apply Qfloor_resp_le. lra.
  - intros Hh.
    assert (Hs : (g + 1 <= Qfloor (inject_Z g * f + (1 # 2)))%Z).
    { replace (g + 1)%Z with (Qfloor (inject_Z (g + 1))) by apply Qfloor_Z.
      apply Qfloor_resp_le. rewrite inject_Z_plus.
      change (inject_Z 1) with 1%Q.
      assert (E : ((f - 1) * inject_Z g == inject_Z g * f - inject_Z g)%Q) by ring.
      rewrite E in Hh. lra. }
    lia.
Qed.

Lemma contains_filter_out (token : string) (l : list string) :
  contains token (filter (fun s => negb (String.eqb token s)) l) = false.
Proof.
  induction l as [|x l IH]; [reflexivity|]. cbn.
  destruct (String.eqb token x) eqn:E; cbn; [exact IH|].
  rewrite E. exact IH.
Qed.

Lemma contains_toggle (token : string) (l : list string) :
  contains token (toggle token l) = negb (contains token l).
Proof.
  unfold toggle. destruct (contains token l) eqn:E; cbn [negb].
  - apply contains_filter_out.
  - unfold contains. rewrite existsb_app. cbn.
    rewrite String.eqb_refl. apply orb_true_r.
Qed.

Lemma contains_filter_other (token other : string) (l : list string) :
  String.eqb other token = false ->
  existsb (String.eqb other) (filter (fun s => negb (String.eqb token s)) l)
  = existsb (String.eqb other) l.
Proof.
  intros Hne. induction l as [|x l IH]; [reflexivity|]. cbn.
  destruct (String.eqb token x) eqn:E; cbn.
  - apply String.eqb_eq in E. subst x. rewrite Hne. exact IH.
  - rewrite IH. reflexivity.
Qed.

Lemma contains_toggle_other (token other : string) (l : list string) :
  String.eqb other token = false ->
  contains other (toggle token l) = contains other l.
Proof.
  intros Hne. unfold toggle. destruct (contains token l).
  - apply contains_filter_other, Hne.
  - unfold contains. rewrite existsb_app. cbn. rewrite Hne.
    rewrite orb_false_r. reflexivity.
Qed.

Lemma filter_out_absent (token : string) (l : list string) :
  contains token l = false ->
  filter (fun s => negb (String.eqb token s)) l = l.
Proof.
  induction l as [|x l IH]; intros H; [reflexivity|].
  cbn in H. apply orb_false_elim in H as [Hx Hl]. cbn. rewrite Hx. cbn.
  rewrite IH by exact Hl. reflexivity.
Qed.

Lemma toggle_twice_absent (token : string) (l : list string) :
  contains token l = false -> toggle token (toggle token l) = l.
Proof.
  intros H. unfold toggle at 2. rewrite H. unfold toggle.
  assert (E : contains token (l ++ [token]) = true).
  { unfold contains. rewrite existsb_app. cbn. rewrite String.eqb_refl.
    apply orb_true_r. }
  rewrite E, filter_app. cbn. rewrite String.eqb_refl. cbn.
  rewrite app_nil_r. apply filter_out_absent, H.
Qed.

(** X17: with the default class name, a click on the button flips the class,
    and afterwards the wheel listeners are attached exactly when the class is
    on the button and the label says so; the object and the pending frames
    are not touched. *)
Theorem click_keeps_button_and_listeners_in_step (d : Document) :
  observing (world d) = true ->
  activeStateClassName (settings (this (world d))) = "scroll-enabled"%string ->
  let d' := click d in
  contains "scroll-enabled" (classList (button d'))
  = negb (contains "scroll-enabled" (classList (button d)))
  /\ listening (world d')
     = contains "scroll-enabled" (classList (button d'))
  /\ innerHTML (button d')
     = (if listening (world d') then "Toggle On" else "Toggle Off")%string
  /\ this (world d') = this (world d)
  /\ frameQueue (world d') = frameQueue (world d).
Proof.
  intros Ho Hn. cbv zeta. unfold click. cbv zeta.
  cbn [world button]. rewrite Hn.
  cbn [dispatch]. rewrite Ho.
  unfold clickListener. cbv zeta. cbn [classList innerHTML].
  rewrite contains_toggle.
  destruct (contains "scroll-enabled" (classList (button d))); cbn;
    repeat split.
Qed.

(** X18: when the instance is given an [activeStateClassName] other than the
    one script.js toggles and the button does not carry it, a click detaches
    the wheel listeners and leaves the button without that class, so no later
    click attaches them again. *)
Theorem click_with_another_class_name_only_disables (d : Document) :
  observing (world d) = true ->
  String.eqb (activeStateClassName (settings (this (world d)))) "scroll-enabled"
  = false ->
  contains (activeStateClassName (settings (this (world d))))
    (classList (button d)) = false ->
  let d' := click d in
  listening (world d') = false
  /\ contains (activeStateClassName (settings (this (world d'))))
       (classList (button d')) = false
  /\ observing (world d') = true.
Proof.
  intros Ho Hn Hc. cbv zeta. unfold click. cbv zeta. cbn [world button].
  unfold clickListener. cbv zeta. cbn [classList].
  rewrite (contains_toggle_other _ _ _ Hn), Hc.
  cbn [dispatch]. rewrite Ho.
  change (scrollModeToggle "disable" (world d))
    with (set_listening false (world d)).
  cbn [listening this observing set_listening].
  rewrite (contains_toggle_other _ _ _ Hn), Hc. auto.
Qed.

Lemma wheel_ignored_after_disable_witness :
  dispatch (EvWheel (mkWheelEvent (n_ 100))) (dispatch (EvButton false) page)
  = dispatch (EvButton false) page.
Proof.
  destruct (wheel_ignored_after_disable page (mkWheelEvent (n_ 100)) eq_refl)
    as (H & _). exact H.
Defined.

Lemma disable_keeps_gesture_in_flight_witness :
  let w := runEvents (calibrate60 ++ ticks 1) page in
  scrolled (runEvents (repeat EvFrame 3) (dispatch (EvButton false) w))
  = scrolled (runEvents (repeat EvFrame 3) w).
Proof.
  cbv zeta.
  rewrite (disable_keeps_gesture_in_flight false (repeat EvFrame 3) eq_refl
             (runEvents (calibrate60 ++ ticks 1) page) eq_refl).
  rewrite button_toggles; reflexivity.
Defined.

Lemma active_gesture_has_step_pending_witness :
  (1 <= pendingSteps (runEvents (calibrate60 ++ ticks 1) page))%nat.
Proof.
  apply (active_gesture_has_step_pending no_options false false
           (calibrate60 ++ ticks 1)).
  vm_compute. reflexivity.
Defined.

Lemma gesture_ends_witness :
  exists m, (1 <= m <= 46)%nat
    /\ scrollActive
         (this (runEvents (repeat EvFrame m)
                  (runEvents (calibrate60 ++ [wheel 100]) page)))
       = VBool false.
Proof.
  assert (H1 : pendingSteps (runEvents (calibrate60 ++ [wheel 100]) page) = 1%nat)
    by (vm_compute; reflexivity).
  assert (H2 : to_number (currentTime (this (runEvents (calibrate60 ++ [wheel 100]) page)))
               = Fin 0) by (vm_compute; reflexivity).
  assert (H3 : to_number (growingDuration (this (runEvents (calibrate60 ++ [wheel 100]) page)))
               = Fin (770 # 1)) by (vm_compute; reflexivity).
  assert (H4 : to_number (stepTime (this (runEvents (calibrate60 ++ [wheel 100]) page)))
               = Fin (17 # 1)) by (vm_compute; reflexivity).
  assert (H5 : (0 < 17 # 1)%Q) by reflexivity.
  assert (H6 : (770 # 1 < 0 + (inject_Z (Z.of_nat 45) + 1) * (17 # 1))%Q)
    by reflexivity.
  destruct (gesture_ends 45 _ _ _ _ H1 H2 H3 H4 H5 H6) as (m & Hm & H & _).
  exists m. split; [exact Hm | exact H].
Defined.

Lemma idle_wheel_events_each_schedule_a_step_witness :
  pendingSteps (runEvents [wheel 100; wheel 100] page) = 2%nat.
Proof.
  destruct (idle_wheel_events_each_schedule_a_step
              [mkWheelEvent (n_ 100); mkWheelEvent (n_ 100)] page
              eq_refl eq_refl) as (H & _).
  exact H.
Defined.

Lemma no_scroll_without_wheel_witness :
  scrolled (runEvents [EvFrame; EvVisibility true; EvTimer 0] page) = [].
Proof.
  destruct (no_scroll_without_wheel [EvFrame; EvVisibility true; EvTimer 0]
              eq_refl page) as (H & _).
  - split; [reflexivity|]. repeat constructor.
  - exact H.
Defined.

Lemma growth_without_limit_witness :
  exists g', growingDuration (wheelUpdate (mkWheelEvent (n_ 100)) unlimitedGesture)
             = VNum (of_Z g')
    /\ (2661 < g')%Z.
Proof.
  destruct (growth_without_limit (mkWheelEvent (n_ 100)) unlimitedGesture
              2661%Z (11 # 10)%Q) as (g' & E & _ & H);
    try reflexivity; try lia; try (vm_compute; discriminate).
  exists g'. split; [exact E|]. apply H. vm_compute. discriminate.
Defined.

Lemma click_keeps_button_and_listeners_in_step_witness :
  listening (world (click pageWithButton)) = true
  /\ innerHTML (button (click pageWithButton)) = "Toggle On"%string
  /\ listening (world (click (click pageWithButton))) = false.
Proof.
  destruct (click_keeps_button_and_listeners_in_step pageWithButton
              eq_refl eq_refl) as (_ & H1 & H2 & _).
  destruct (click_keeps_button_and_listeners_in_step (click pageWithButton)
              eq_refl eq_refl) as (_ & H3 & _).
  split; [rewrite H1; reflexivity|]. split; [rewrite H2; reflexivity|].
  rewrite H3. reflexivity.
Defined.

Lemma click_with_another_class_name_only_disables_witness :
  listening (world pageWithOtherClass) = true
  /\ listening (world (click pageWithOtherClass)) = false
  /\ listening (world (click (click pageWithOtherClass))) = false.
Proof.
  destruct (click_with_another_class_name_only_disables pageWithOtherClass
              eq_refl eq_refl eq_refl) as (H1 & H2 & H3).
  destruct (click_with_another_class_name_only_disables
              (click pageWithOtherClass) H3 eq_refl H2) as (H4 & _).
  split; [reflexivity|]. split; assumption.
Defined.
